(** * The contact relay handler of [src/server.js]

    A shallow embedding of the strict [POST /api/contact] route
    (lines 100-273 of [src/server.js]): the input sanitisation, the
    e-mail regular expression, the Mailboxlayer verification step and the
    Nodemailer dispatch, together with the rate limiter placed in front of
    the route.

    JavaScript strings are sequences of UTF-16 code units, numbers are
    binary64 floats, and the two outbound calls ([axios.get] and
    [transporter.sendMail]) are oracles of a [World]; every call the
    handler makes is recorded in a trace, so that "no dispatch happens"
    is a statement about that trace.  [console.log] and [console.error]
    are not modelled. *)

From Stdlib Require Import ZArith NArith List String Ascii Lia Floats.
From stdpp Require Import base option gmap.
Import ListNotations.

(* ------------------------------------------------------------------ *)
(** ** Strings *)

Abbreviation CodeUnit := N (only parsing).
Abbreviation JsString := (list N) (only parsing).

(** An ASCII literal of the source as a JavaScript string. *)
Definition lit (s : string) : JsString :=
  map N_of_ascii (list_ascii_of_string s).

(** ECMAScript [WhiteSpace] and [LineTerminator] code points: what
    [String.prototype.trim] strips and what [\s] matches. *)
Definition isWhiteSpace (c : CodeUnit) : bool :=
  existsb (N.eqb c) [9; 11; 12; 32; 160; 5760; 8239; 8287; 12288; 65279]%N
  || ((8192 <=? c) && (c <=? 8202))%N.

Definition isLineTerminator (c : CodeUnit) : bool :=
  existsb (N.eqb c) [10; 13; 8232; 8233]%N.

Definition isSpace (c : CodeUnit) : bool :=
  isWhiteSpace c || isLineTerminator c.

Fixpoint trimStart (s : JsString) : JsString :=
  match s with
  | [] => []
  | c :: s' => if isSpace c then trimStart s' else s
  end.

Definition trimEnd (s : JsString) : JsString :=
  rev (trimStart (rev s)).

(** [s.trim()] *)
Definition trim (s : JsString) : JsString :=
  trimEnd (trimStart s).

Definition isEmpty (s : JsString) : bool :=
  match s with [] => true | _ :: _ => false end.

(* ------------------------------------------------------------------ *)
(** ** Regular expressions

    The one pattern of the source has no back-references or look-around
    and is anchored at both ends, so [RegExp.prototype.test] is
    membership of the whole string in a regular language.  Membership is
    computed with derivatives. *)

Inductive Regex : Type :=
| RFail
| REps
| RClass (p : CodeUnit -> bool)
| RCat (r1 r2 : Regex)
| RAlt (r1 r2 : Regex)
| RStar (r : Regex).

(** [r+] *)
Definition RPlus (r : Regex) : Regex := RCat r (RStar r).

(** a literal character *)
Definition RChar (c : CodeUnit) : Regex := RClass (N.eqb c).

Fixpoint nullable (r : Regex) : bool :=
  match r with
  | RFail => false
  | REps => true
  | RClass _ => false
  | RCat r1 r2 => nullable r1 && nullable r2
  | RAlt r1 r2 => nullable r1 || nullable r2
  | RStar _ => true
  end.

Fixpoint deriv (c : CodeUnit) (r : Regex) : Regex :=
  match r with
  | RFail => RFail
  | REps => RFail
  | RClass p => if p c then REps else RFail
  | RCat r1 r2 =>
      if nullable r1
      then RAlt (RCat (deriv c r1) r2) (deriv c r2)
      else RCat (deriv c r1) r2
  | RAlt r1 r2 => RAlt (deriv c r1) (deriv c r2)
  | RStar r1 => RCat (deriv c r1) (RStar r1)
  end.

(** [/^r$/.test(s)] *)
Definition test (r : Regex) (s : JsString) : bool :=
  nullable (fold_left (fun r' c => deriv c r') s r).

(** The language of a regular expression. *)
Inductive Matches : Regex -> JsString -> Prop :=
| MEps : Matches REps []
| MClass p c : p c = true -> Matches (RClass p) [c]
| MCat r1 r2 u v : Matches r1 u -> Matches r2 v -> Matches (RCat r1 r2) (u ++ v)
| MAltL r1 r2 u : Matches r1 u -> Matches (RAlt r1 r2) u
| MAltR r1 r2 u : Matches r2 u -> Matches (RAlt r1 r2) u
| MStarNil r : Matches (RStar r) []
| MStarApp r u v : Matches r u -> Matches (RStar r) v -> Matches (RStar r) (u ++ v).

(** [[^\s@]]: neither white space nor the at sign. *)
Definition notSpaceAt (c : CodeUnit) : bool :=
  negb (isSpace c || (c =? 64)%N).

(** [const emailRegex = /^[^\s@]+@[^\s@]+\.[^\s@]+$/;] *)
Definition emailRegex : Regex :=
  RCat (RPlus (RClass notSpaceAt))
    (RCat (RChar 64)
       (RCat (RPlus (RClass notSpaceAt))
          (RCat (RChar 46) (RPlus (RClass notSpaceAt))))).

(** The shape [local@domain.tld] in words: three non-empty runs of
    characters that are neither white space nor [@], separated by one
    [@] and one dot. *)
Definition local_at_domain_tld (s : JsString) : Prop :=
  exists l d t : JsString,
    s = l ++ 64%N :: d ++ 46%N :: t /\
    l <> [] /\ d <> [] /\ t <> [] /\
    forallb notSpaceAt l = true /\
    forallb notSpaceAt d = true /\
    forallb notSpaceAt t = true.

(* ------------------------------------------------------------------ *)
(** ** Values, configuration and the outside world *)

(** A value produced by [JSON.parse] (or a missing property).  Objects
    and arrays are opaque: the handler only tests them for truthiness and
    they carry no callable property. *)
Inductive JsValue : Type :=
| JUndefined
| JNull
| JBool (b : bool)
| JNum (x : float)
| JStr (s : JsString)
| JObject.

Definition ToBoolean (v : JsValue) : bool :=
  match v with
  | JUndefined | JNull => false
  | JBool b => b
  | JNum x => negb (PrimFloat.is_zero x || PrimFloat.is_nan x)
  | JStr s => negb (isEmpty s)
  | JObject => true
  end.

(** [a && b] *)
Definition js_and (a b : JsValue) : JsValue :=
  if ToBoolean a then b else a.

(** A property that is compared with a number.  The comparison sees a
    value through ECMAScript's ToNumber only: a missing property, [null],
    a boolean and a number are kept as they are; a string, an array or an
    object is represented by what ToNumber makes of it, a number, or
    nothing when the conversion throws (an object whose own [toString]
    is not callable). *)
Inductive ScoreValue : Type :=
| ScoreMissing
| ScoreNull
| ScoreBool (b : bool)
| ScoreNum (x : float)
| ScoreOther (converted : option float).

(** ToNumber; [None] when the conversion throws. *)
Definition ToNumber (v : ScoreValue) : option float :=
  match v with
  | ScoreMissing => Some PrimFloat.nan
  | ScoreNull => Some 0%float
  | ScoreBool true => Some 1%float
  | ScoreBool false => Some 0%float
  | ScoreNum x => Some x
  | ScoreOther converted => converted
  end.

(** [v < y] for a number [y]; [None] when converting [v] throws.  A
    missing property is [undefined], which converts to NaN and compares
    false. *)
Definition js_lt (v : ScoreValue) (y : float) : option bool :=
  match ToNumber v with
  | Some x => Some (PrimFloat.ltb x y)
  | None => None
  end.

(** The literal [0.3] of the source, as the binary64 value it denotes. *)
Definition threshold : float := 0x1.3333333333333p-2%float.

(** [req.body] after [express.json()]: the three properties the handler
    destructures; a missing property is [JUndefined]. *)
Record Body : Type := {
  body_name : JsValue;
  body_email : JsValue;
  body_message : JsValue
}.

(** [process.env]: a variable is a string or is not set. *)
Record Env : Type := {
  EMAIL_USER : option JsString;
  EMAIL_PASS : option JsString;
  RECEIVER_EMAIL : option JsString;
  MAILBOXLAYER_API_KEY : option JsString
}.

Definition getenv (v : option JsString) : JsValue :=
  match v with
  | Some s => JStr s
  | None => JUndefined
  end.

Inductive JsError : Type :=
| TypeError (msg : JsString)
| Error (msg : JsString).

Definition error_message (e : JsError) : JsString :=
  match e with
  | TypeError m => m
  | Error m => m
  end.

(** The properties of the Mailboxlayer answer the handler reads.  The
    flags and the error are arbitrary JSON values; the score is read in
    a comparison with a number only. *)
Record MailboxlayerData : Type := {
  error : JsValue;
  format_valid : JsValue;
  mx_found : JsValue;
  smtp_check : JsValue;
  score : ScoreValue
}.

(** [verificationResponse.data]: [null] (reading a property throws), or
    a value whose properties can be read; a string or number body reads
    as an object with every property missing. *)
Inductive ResponseData : Type :=
| DataNull
| DataObject (d : MailboxlayerData).

Inductive AxiosResult : Type :=
| AxiosResolved (data : ResponseData)
| AxiosRejected (e : JsError).

(** The argument of [nodemailer.createTransport]. *)
Record Transport : Type := {
  host : JsString;
  port : N;
  secure : bool;
  auth_user : option JsString;
  auth_pass : option JsString;
  connectionTimeout : N;
  greetingTimeout : N;
  socketTimeout : N
}.

Record MailOptions : Type := {
  from : option JsString;
  to : option JsString;
  replyTo : JsString;
  subject : JsString;
  text : JsString;
  html : JsString
}.

Inductive SendResult : Type :=
| SendResolved (messageId : JsString)
| SendRejected (e : JsError).

(** The two remote services, as functions of what they are sent. *)
Record World : Type := {
  axios_get_result : JsString -> AxiosResult;
  sendMail_result : Transport -> MailOptions -> SendResult
}.

(** [{ success, message }] *)
Record Envelope : Type := {
  success : bool;
  message : JsString
}.

(** [res.status(status).json(json)] *)
Record Response : Type := {
  status : nat;
  json : Envelope
}.

(** An outbound call, as it appears in the trace. *)
Inductive Call : Type :=
| CallAxiosGet (url : JsString)
| CallSendMail (t : Transport) (o : MailOptions).

(* ------------------------------------------------------------------ *)
(** ** The handler monad

    A statement completes normally with a value, by [return] with the
    response that was sent, or by [throw]; next to the completion stand
    the outbound calls made so far, oldest first. *)

Inductive Completion (A : Type) : Type :=
| Normal (a : A)
| Return (r : Response)
| Throw (e : JsError).

Arguments Normal {A} a.
Arguments Return {A} r.
Arguments Throw {A} e.

Definition Handler (A : Type) : Type := (Completion A * list Call)%type.

Definition ret {A} (a : A) : Handler A := (Normal a, []).

Definition bind {A B} (m : Handler A) (k : A -> Handler B) : Handler B :=
  match m with
  | (Normal a, t) => let (c, t') := k a in (c, t ++ t')
  | (Return r, t) => (Return r, t)
  | (Throw e, t) => (Throw e, t)
  end.

Declare Scope handler_scope.
Delimit Scope handler_scope with handler.
Notation "x <- m ;; k" := (bind m (fun x => k))
  (at level 100, m at next level, right associativity) : handler_scope.
Open Scope handler_scope.

Definition throw {A} (e : JsError) : Handler A := (Throw e, []).

(** [return res.status(st).json({ success: ok, message: msg });] *)
Definition respond {A} (st : nat) (ok : bool) (msg : JsString) : Handler A :=
  (Return {| status := st; json := {| success := ok; message := msg |} |}, []).

(** [try { body } catch (e) { handler e }] *)
Definition tryCatch {A} (body : Handler A) (handler : JsError -> Handler A)
  : Handler A :=
  match body with
  | (Throw e, t) => let (c, t') := handler e in (c, t ++ t')
  | done => done
  end.

(** [await axios.get(url)], followed by [.data] *)
Definition axios_get (w : World) (url : JsString) : Handler ResponseData :=
  match axios_get_result w url with
  | AxiosResolved data => (Normal data, [CallAxiosGet url])
  | AxiosRejected e => (Throw e, [CallAxiosGet url])
  end.

(** [await transporter.sendMail(mailOptions)] *)
Definition sendMail (w : World) (t : Transport) (o : MailOptions)
  : Handler JsString :=
  match sendMail_result w t o with
  | SendResolved messageId => (Normal messageId, [CallSendMail t o])
  | SendRejected e => (Throw e, [CallSendMail t o])
  end.

(** What the caller of the [async] route function observes. *)
Inductive Outcome : Type :=
| Responded (r : Response)
| Rejected (e : JsError)
| NoResponse.

Definition run (h : Handler unit) : Outcome * list Call :=
  match h with
  | (Return r, t) => (Responded r, t)
  | (Throw e, t) => (Rejected e, t)
  | (Normal _, t) => (NoResponse, t)
  end.

(* ------------------------------------------------------------------ *)
(** ** The route [app.post('/api/contact', async (req, res) => ...)] *)

(** [v = v ? v.trim() : '';] for the variable called [var].  A truthy
    value that is not a string has no [trim] method: the call throws. *)
Definition trimField (var : string) (v : JsValue) : Handler JsString :=
  if ToBoolean v then
    match v with
    | JStr s => ret (trim s)
    | _ => throw (TypeError (lit var ++ lit ".trim is not a function"))
    end
  else ret [].

(** [data.error]: reading a property of [null] throws. *)
Definition readData (data : ResponseData) : Handler MailboxlayerData :=
  match data with
  | DataObject d => ret d
  | DataNull =>
      throw (TypeError (lit "Cannot read properties of null (reading 'error')"))
  end.

Definition verificationUrl (mailboxApiKey email : JsString) : JsString :=
  lit "https://apilayer.net/api/check?access_key=" ++ mailboxApiKey
  ++ lit "&email=" ++ email ++ lit "&smtp=1&format=1".

Definition transporter (env : Env) : Transport :=
  {| host := lit "smtp.gmail.com";
     port := 465;
     secure := true;
     auth_user := EMAIL_USER env;
     auth_pass := EMAIL_PASS env;
     connectionTimeout := 10000;
     greetingTimeout := 10000;
     socketTimeout := 10000 |}.

Definition newline : JsString := [10%N].

Definition mailOptions (env : Env) (name email message : JsString)
  : MailOptions :=
  {| from := EMAIL_USER env;
     to := RECEIVER_EMAIL env;
     replyTo := email;
     subject := lit "Portfolio Contact: Message from " ++ name;
     text :=
       lit "You have received a new message from your portfolio contact form."
       ++ newline ++ newline ++ lit "Name: " ++ name
       ++ newline ++ lit "User Email: " ++ email
       ++ newline ++ newline ++ lit "Message:" ++ newline ++ message;
     html :=
       lit "<h3>New Portfolio Message</h3><p><strong>Name:</strong> " ++ name
       ++ lit "</p><p><strong>Email:</strong> " ++ email
       ++ lit "</p><p><strong>Message:</strong><br/>" ++ message
       ++ lit "</p>" |}.

(** Lines 198-230: the inner [try] block.  Its normal completion is the
    value assigned to [shouldSend]. *)
Definition verifyEmail (w : World) (url : JsString) : Handler bool :=
  tryCatch
    (data <- axios_get w url ;;
     d <- readData data ;;
     if ToBoolean (error d) then
       respond 500 false (lit "Email verification service unavailable.")
     else
       let isVerified := js_and (format_valid d) (mx_found d) in
       if negb (ToBoolean isVerified) then
         respond 400 false
           (lit "Email address appears invalid (MX record not found).")
       else
         match js_lt (score d) threshold with
         | None =>
             throw (TypeError (lit "Cannot convert object to primitive value"))
         | Some true =>
             respond 400 false (lit "Email blocked by security score.")
         | Some false => ret true
         end)
    (fun apiError =>
       respond 500 false
         (lit "Email verification failed. Please check your email or try again later.")).

(** Lines 183-268: the outer [try] block. *)
Definition verifyAndSend (env : Env) (w : World)
    (name email message : JsString) : Handler unit :=
  tryCatch
    (match MAILBOXLAYER_API_KEY env with
     | Some (c :: k) =>
         let mailboxApiKey := c :: k in
         shouldSend <- verifyEmail w (verificationUrl mailboxApiKey email) ;;
         if negb shouldSend then
           respond 400 false (lit "Email validation failed.")
         else
           _ <- sendMail w (transporter env)
                  (mailOptions env name email message) ;;
           respond 200 true (lit "Message sent successfully!")
     | _ =>
         respond 500 false
           (lit "Server configuration error: Verification key missing.")
     end)
    (fun error =>
       respond 500 false
         (lit "Internal server error: " ++ error_message error)).

(** Lines 150-269. *)
Definition handleContact (env : Env) (w : World) (body : Body)
  : Handler unit :=
  name <- trimField "name" (body_name body) ;;
  email <- trimField "email" (body_email body) ;;
  message <- trimField "message" (body_message body) ;;
  if isEmpty name || isEmpty email || isEmpty message then
    respond 400 false (lit "All fields are required.")
  else if negb (test emailRegex email) then
    respond 400 false (lit "Invalid email format.")
  else if 2000 <? length message then
    respond 400 false (lit "Message is too long (limit 2000 chars).")
  else if negb (ToBoolean (getenv (RECEIVER_EMAIL env))) then
    respond 500 false
      (lit "Server configuration error: No receiver email configured.")
  else verifyAndSend env w name email message.

(** The value of [v ? v.trim() : ''] when it has one. *)
Definition trimmed (v : JsValue) : option JsString :=
  match v with
  | JStr s => Some (trim s)
  | _ => if ToBoolean v then None else Some []
  end.

(** A submission with the three trimmed fields [name], [email] and
    [message] that passes the presence, format and length checks. *)
Definition valid_submission (body : Body) (name email message : JsString)
  : Prop :=
  trimmed (body_name body) = Some name /\
  trimmed (body_email body) = Some email /\
  trimmed (body_message body) = Some message /\
  name <> [] /\ email <> [] /\ message <> [] /\
  test emailRegex email = true /\
  length message <= 2000.

(** A configuration variable that is set to a non-empty string. *)
Definition configured (v : option JsString) (s : JsString) : Prop :=
  v = Some s /\ s <> [].

(* ------------------------------------------------------------------ *)
(** ** The rate limiter in front of the route *)

Module RateLimit.

(** The options [rateLimit] is given on lines 133-139; [statusCode] is
    not set there and keeps the middleware's 429. *)
Record Options : Type := {
  windowMs : N;
  max : N;
  message : Envelope;
  statusCode : nat
}.

(** What the store keeps for one caller address. *)
Record Client : Type := {
  totalHits : N;
  resetTime : N
}.

(** Modelled from the spec: the middleware returned by [rateLimit] of
    the express-rate-limit package, which is not under src/.  A caller's
    first request opens a window of [windowMs] milliseconds; every
    request in the window is counted; once the window has elapsed the
    next request opens a new one. *)
Definition increment (o : Options) (now : N) (key : JsString)
    (store : gmap (list N) Client) : Client :=
  let fresh := {| totalHits := 1; resetTime := now + windowMs o |} in
  match store !! key with
  | Some c =>
      if (now <? resetTime c)%N
      then {| totalHits := totalHits c + 1; resetTime := resetTime c |}
      else fresh
  | None => fresh
  end.

(** Modelled from the spec: one request through the middleware; [true]
    when it is passed on to the route, [false] when the count exceeds
    [max] and the middleware answers itself. *)
Definition limit (o : Options) (now : N) (key : JsString)
    (store : gmap (list N) Client) : bool * gmap (list N) Client :=
  let c := increment o now key store in
  ((totalHits c <=? max o)%N, <[key := c]> store).

End RateLimit.

(** [const contactLimiter = rateLimit({ ... });] *)
Definition contactLimiter : RateLimit.Options :=
  {| RateLimit.windowMs := 15 * 60 * 1000;
     RateLimit.max := 5;
     RateLimit.message :=
       {| success := false;
          message := lit "Too many requests, please try again later." |};
     RateLimit.statusCode := 429 |}.

(** A request to [POST /api/contact]: arrival time in milliseconds,
    caller address ([req.ip]) and parsed body. *)
Record Request : Type := {
  time : N;
  ip : JsString;
  body : Body
}.

(** [app.use('/api/contact', contactLimiter)] followed by the route. *)
Definition postContact (env : Env) (w : World)
    (store : gmap (list N) RateLimit.Client) (req : Request)
  : (Outcome * list Call) * gmap (list N) RateLimit.Client :=
  let (pass, store') := RateLimit.limit contactLimiter (time req) (ip req) store in
  if pass
  then (run (handleContact env w (body req)), store')
  else ((Responded {| status := RateLimit.statusCode contactLimiter;
                      json := RateLimit.message contactLimiter |}, []),
        store').

(** A sequence of requests, each served in the store the previous ones
    left. *)
Fixpoint serve (env : Env) (w : World)
    (store : gmap (list N) RateLimit.Client) (reqs : list Request)
  : list (Outcome * list Call) * gmap (list N) RateLimit.Client :=
  match reqs with
  | [] => ([], store)
  | req :: reqs' =>
      let (out, store') := postContact env w store req in
      let (outs, store'') := serve env w store' reqs' in
      (out :: outs, store'')
  end.

(** The number of requests of [reqs] that come from [a]. *)
Definition requestsFrom (a : JsString) (reqs : list Request) : nat :=
  length (List.filter (fun r => bool_decide (ip r = a)) reqs).

(** How often [transporter.sendMail] was invoked in a trace. *)
Definition dispatchCount (t : list Call) : nat :=
  length
    (List.filter
       (fun c => match c with CallSendMail _ _ => true | _ => false end) t).

(** The success envelope of line 262. *)
Definition sent : Response :=
  {| status := 200;
     json := {| success := true; message := lit "Message sent successfully!" |} |}.

(** A failure response. *)
Definition failure (st : nat) (msg : string) : Response :=
  {| status := st; json := {| success := false; message := lit msg |} |}.

(** The response of the [catch] block of line 226. *)
Definition verificationFailed : Response :=
  failure 500
    "Email verification failed. Please check your email or try again later.".

(** What the dispatch stage answers: line 262, or the [catch] block of
    line 264. *)
Definition dispatchResponse (result : SendResult) : Response :=
  match result with
  | SendResolved _ => sent
  | SendRejected e =>
      {| status := 500;
         json := {| success := false;
                    message := lit "Internal server error: " ++ error_message e |} |}
  end.

(** The same answer with another value for its [smtp_check] property. *)
Definition set_smtp_check (v : JsValue) (d : MailboxlayerData)
  : MailboxlayerData :=
  {| error := error d;
     format_valid := format_valid d;
     mx_found := mx_found d;
     smtp_check := v;
     score := score d |}.

(** The world in which the verification service answers [data] to every
    request, the mail transport being that of [w]. *)
Definition answering (w : World) (data : ResponseData) : World :=
  {| axios_get_result := fun _ => AxiosResolved data;
     sendMail_result := sendMail_result w |}.

(** ** Sample inputs *)

Definition annBody : Body :=
  {| body_name := JStr (lit "Ann");
     body_email := JStr (lit "  ann@example.com ");
     body_message := JStr (lit "Hi") |}.

Definition sampleEnv : Env :=
  {| EMAIL_USER := Some (lit "relay@gmail.com");
     EMAIL_PASS := Some (lit "app-password");
     RECEIVER_EMAIL := Some (lit "owner@example.org");
     MAILBOXLAYER_API_KEY := Some (lit "k3y") |}.

Definition noRecipientEnv : Env :=
  {| EMAIL_USER := Some (lit "relay@gmail.com");
     EMAIL_PASS := Some (lit "app-password");
     RECEIVER_EMAIL := None;
     MAILBOXLAYER_API_KEY := Some (lit "k3y") |}.

(** An answer that reports a deliverable address whose mailbox check
    failed. *)
Definition goodAnswer (s : ScoreValue) : MailboxlayerData :=
  {| error := JUndefined;
     format_valid := JBool true;
     mx_found := JBool true;
     smtp_check := JBool false;
     score := s |}.

Definition sampleWorld (s : ScoreValue) : World :=
  {| axios_get_result := fun _ => AxiosResolved (DataObject (goodAnswer s));
     sendMail_result := fun _ _ => SendResolved (lit "<1@gmail.com>") |}.

Definition unreachableWorld : World :=
  {| axios_get_result := fun _ => AxiosRejected (Error (lit "connect ETIMEDOUT"));
     sendMail_result := fun _ _ => SendResolved (lit "<1@gmail.com>") |}.

Definition annUrl : JsString :=
  verificationUrl (lit "k3y") (lit "ann@example.com").

Definition annMail (env : Env) : MailOptions :=
  mailOptions env (lit "Ann") (lit "ann@example.com") (lit "Hi").

(** A message of 2001 letters. *)
Definition longMessage : JsString := repeat 97%N 2001.

(** The answer of the limiter once the count is exceeded. *)
Definition tooManyRequests : Response :=
  {| status := 429;
     json := {| success := false;
                message := lit "Too many requests, please try again later." |} |}.

(** A request of the sample submission. *)
Definition annRequest (t : N) (a : string) : Request :=
  {| time := t; ip := lit a; body := annBody |}.

(** Four further requests of one caller within a quarter of an hour,
    with a request of another caller among them. *)
Definition sampleRest : list Request :=
  [ annRequest 1000 "203.0.113.7";
    annRequest 2000 "198.51.100.2";
    annRequest 300000 "203.0.113.7";
    annRequest 600000 "203.0.113.7";
    annRequest 899000 "203.0.113.7" ].

(** A request with an empty body. *)
Definition emptyRequest (t : N) (a : string) : Request :=
  {| time := t;
     ip := lit a;
     body := {| body_name := JUndefined;
                body_email := JUndefined;
                body_message := JUndefined |} |}.


(* ------------------------------------------------------------------ *)
(** ** The paths through the route

    Every way the route function of lines 150-269 can end, with the
    conditions under which it does and the calls it has made by then. *)

Inductive Path (env : Env) (w : World) (body : Body)
  : Outcome * list Call -> Prop :=
| PathThrowsName :
    trimmed (body_name body) = None ->
    Path env w body
      (Rejected (TypeError (lit "name.trim is not a function")), [])
| PathThrowsEmail name :
    trimmed (body_name body) = Some name ->
    trimmed (body_email body) = None ->
    Path env w body
      (Rejected (TypeError (lit "email.trim is not a function")), [])
| PathThrowsMessage name email :
    trimmed (body_name body) = Some name ->
    trimmed (body_email body) = Some email ->
    trimmed (body_message body) = None ->
    Path env w body
      (Rejected (TypeError (lit "message.trim is not a function")), [])
| PathMissing name email message :
    trimmed (body_name body) = Some name ->
    trimmed (body_email body) = Some email ->
    trimmed (body_message body) = Some message ->
    name = [] \/ email = [] \/ message = [] ->
    Path env w body (Responded (failure 400 "All fields are required."), [])
| PathFormat name email message :
    trimmed (body_name body) = Some name ->
    trimmed (body_email body) = Some email ->
    trimmed (body_message body) = Some message ->
    name <> [] -> email <> [] -> message <> [] ->
    test emailRegex email = false ->
    Path env w body (Responded (failure 400 "Invalid email format."), [])
| PathLength name email message :
    trimmed (body_name body) = Some name ->
    trimmed (body_email body) = Some email ->
    trimmed (body_message body) = Some message ->
    name <> [] -> email <> [] -> message <> [] ->
    test emailRegex email = true ->
    2000 < length message ->
    Path env w body
      (Responded (failure 400 "Message is too long (limit 2000 chars)."), [])
| PathNoRecipient name email message :
    valid_submission body name email message ->
    ToBoolean (getenv (RECEIVER_EMAIL env)) = false ->
    Path env w body
      (Responded
         (failure 500
            "Server configuration error: No receiver email configured."), [])
| PathNoKey name email message r :
    valid_submission body name email message ->
    configured (RECEIVER_EMAIL env) r ->
    ToBoolean (getenv (MAILBOXLAYER_API_KEY env)) = false ->
    Path env w body
      (Responded
         (failure 500 "Server configuration error: Verification key missing."),
       [])
| PathUnreachable name email message r k e :
    valid_submission body name email message ->
    configured (RECEIVER_EMAIL env) r ->
    configured (MAILBOXLAYER_API_KEY env) k ->
    axios_get_result w (verificationUrl k email) = AxiosRejected e ->
    Path env w body
      (Responded verificationFailed, [CallAxiosGet (verificationUrl k email)])
| PathNullBody name email message r k :
    valid_submission body name email message ->
    configured (RECEIVER_EMAIL env) r ->
    configured (MAILBOXLAYER_API_KEY env) k ->
    axios_get_result w (verificationUrl k email) = AxiosResolved DataNull ->
    Path env w body
      (Responded verificationFailed, [CallAxiosGet (verificationUrl k email)])
| PathServiceError name email message r k d :
    valid_submission body name email message ->
    configured (RECEIVER_EMAIL env) r ->
    configured (MAILBOXLAYER_API_KEY env) k ->
    axios_get_result w (verificationUrl k email) = AxiosResolved (DataObject d) ->
    ToBoolean (error d) = true ->
    Path env w body
      (Responded (failure 500 "Email verification service unavailable."),
       [CallAxiosGet (verificationUrl k email)])
| PathUnverified name email message r k d :
    valid_submission body name email message ->
    configured (RECEIVER_EMAIL env) r ->
    configured (MAILBOXLAYER_API_KEY env) k ->
    axios_get_result w (verificationUrl k email) = AxiosResolved (DataObject d) ->
    ToBoolean (error d) = false ->
    ToBoolean (format_valid d) = false \/ ToBoolean (mx_found d) = false ->
    Path env w body
      (Responded
         (failure 400 "Email address appears invalid (MX record not found)."),
       [CallAxiosGet (verificationUrl k email)])
| PathLowScore name email message r k d :
    valid_submission body name email message ->
    configured (RECEIVER_EMAIL env) r ->
    configured (MAILBOXLAYER_API_KEY env) k ->
    axios_get_result w (verificationUrl k email) = AxiosResolved (DataObject d) ->
    ToBoolean (error d) = false ->
    ToBoolean (format_valid d) = true ->
    ToBoolean (mx_found d) = true ->
    js_lt (score d) threshold = Some true ->
    Path env w body
      (Responded (failure 400 "Email blocked by security score."),
       [CallAxiosGet (verificationUrl k email)])
| PathScoreThrows name email message r k d :
    valid_submission body name email message ->
    configured (RECEIVER_EMAIL env) r ->
    configured (MAILBOXLAYER_API_KEY env) k ->
    axios_get_result w (verificationUrl k email) = AxiosResolved (DataObject d) ->
    ToBoolean (error d) = false ->
    ToBoolean (format_valid d) = true ->
    ToBoolean (mx_found d) = true ->
    js_lt (score d) threshold = None ->
    Path env w body
      (Responded verificationFailed, [CallAxiosGet (verificationUrl k email)])
| PathDispatched name email message r k d :
    valid_submission body name email message ->
    configured (RECEIVER_EMAIL env) r ->
    configured (MAILBOXLAYER_API_KEY env) k ->
    axios_get_result w (verificationUrl k email) = AxiosResolved (DataObject d) ->
    ToBoolean (error d) = false ->
    ToBoolean (format_valid d) = true ->
    ToBoolean (mx_found d) = true ->
    js_lt (score d) threshold = Some false ->
    Path env w body
      (Responded (dispatchResponse
                    (sendMail_result w (transporter env)
                       (mailOptions env name email message))),
       [CallAxiosGet (verificationUrl k email);
        CallSendMail (transporter env) (mailOptions env name email message)]).

(** ** Further sample inputs *)

Definition noKeyEnv : Env :=
  {| EMAIL_USER := Some (lit "relay@gmail.com");
     EMAIL_PASS := Some (lit "app-password");
     RECEIVER_EMAIL := Some (lit "owner@example.org");
     MAILBOXLAYER_API_KEY := None |}.

(** The verification service answers well and the mail transport refuses
    the credentials. *)
Definition failingSendWorld : World :=
  {| axios_get_result :=
       fun _ => AxiosResolved (DataObject (goodAnswer (ScoreNum 0.5%float)));
     sendMail_result :=
       fun _ _ => SendRejected (Error (lit "Invalid login")) |}.

(** The verification service answers the JSON text [null]. *)
Definition nullBodyWorld : World :=
  {| axios_get_result := fun _ => AxiosResolved DataNull;
     sendMail_result := fun _ _ => SendResolved (lit "<1@gmail.com>") |}.

(* ------------------------------------------------------------------ *)
(** ** Cross-origin requests (lines 111-128) *)

Definition allowedOrigins : list (list N) :=
  [ lit "http://localhost:3000";
    lit "http://localhost:5173";
    lit "https://portfolio-c863d.web.app";
    lit "https://rohitdev-portfolio.web.app" ].

(** [Array.prototype.indexOf] on an array of strings, searching from the
    element of index [i]: the index of the first element equal to [x],
    or -1. *)
Fixpoint indexOfFrom (l : list (list N)) (x : JsString) (i : Z) : Z :=
  match l with
  | [] => (-1)%Z
  | y :: l' => if bool_decide (y = x) then i else indexOfFrom l' x (i + 1)%Z
  end.

Definition indexOf (l : list (list N)) (x : JsString) : Z :=
  indexOfFrom l x 0%Z.

Definition corsRefused : JsError :=
  Error (lit "The CORS policy for this site does not allow access from the specified Origin.").

(** The [origin] function handed to [cors]: the two arguments it passes
    to [callback] for the [Origin] header of a request ([None] when the
    request has none). *)
Definition corsOrigin (origin : option JsString) : option JsError * bool :=
  if negb (ToBoolean (getenv origin)) then (None, true)
  else
    match origin with
    | Some o =>
        if (indexOf allowedOrigins o =? -1)%Z
        then (Some corsRefused, false)
        else (None, true)
    | None => (None, true)
    end.

(* ------------------------------------------------------------------ *)
(** ** The earlier route (lines 20-94)

    The first program of [src/server.js] registers the same route with a
    laxer handler: no trimming, no format or length check, verification
    only when a key is configured and never blocking when it fails. *)

Module Legacy.

(** [nodemailer.createTransport({ service: 'gmail', ... })] *)
Record Transport : Type := {
  service : JsString;
  auth_user : option JsString;
  auth_pass : option JsString;
  connectionTimeout : N;
  greetingTimeout : N;
  socketTimeout : N
}.

(** [replyTo] is the [email] property as it was received. *)
Record MailOptions : Type := {
  from : option JsString;
  to : JsString;
  replyTo : JsValue;
  subject : JsString;
  text : JsString;
  html : JsString
}.

Record World : Type := {
  axios_get_result : JsString -> AxiosResult;
  sendMail_result : Transport -> MailOptions -> SendResult
}.

Inductive Call : Type :=
| CallAxiosGet (url : JsString)
| CallSendMail (t : Transport) (o : MailOptions).

Definition Handler (A : Type) : Type := (Completion A * list Call)%type.

Definition ret {A} (a : A) : Handler A := (Normal a, []).

Definition bind {A B} (m : Handler A) (k : A -> Handler B) : Handler B :=
  match m with
  | (Normal a, t) => let (c, t') := k a in (c, t ++ t')
  | (Return r, t) => (Return r, t)
  | (Throw e, t) => (Throw e, t)
  end.

Declare Scope legacy_scope.
Delimit Scope legacy_scope with legacy.
Notation "x <- m ;; k" := (bind m (fun x => k))
  (at level 100, m at next level, right associativity) : legacy_scope.
Local Open Scope legacy_scope.

Definition throw {A} (e : JsError) : Handler A := (Throw e, []).

Definition respond {A} (st : nat) (ok : bool) (msg : JsString) : Handler A :=
  (Return {| status := st; json := {| success := ok; message := msg |} |}, []).

Definition tryCatch {A} (body : Handler A) (handler : JsError -> Handler A)
  : Handler A :=
  match body with
  | (Throw e, t) => let (c, t') := handler e in (c, t ++ t')
  | done => done
  end.

Definition axios_get (w : World) (url : JsString) : Handler ResponseData :=
  match axios_get_result w url with
  | AxiosResolved data => (Normal data, [CallAxiosGet url])
  | AxiosRejected e => (Throw e, [CallAxiosGet url])
  end.

Definition sendMail (w : World) (t : Transport) (o : MailOptions)
  : Handler JsString :=
  match sendMail_result w t o with
  | SendResolved messageId => (Normal messageId, [CallSendMail t o])
  | SendRejected e => (Throw e, [CallSendMail t o])
  end.

Definition run (h : Handler unit) : Outcome * list Call :=
  match h with
  | (Return r, t) => (Responded r, t)
  | (Throw e, t) => (Rejected e, t)
  | (Normal _, t) => (NoResponse, t)
  end.

(** The string a value contributes to a template literal, when the
    conversion does not throw.  [toStringOther] stands for the conversion
    of numbers, objects and arrays, which the embedding of values leaves
    open; it answers [None] when the conversion throws. *)
Definition toStringValue (toStringOther : JsValue -> option JsString)
    (v : JsValue) : option JsString :=
  match v with
  | JStr s => Some s
  | JUndefined => Some (lit "undefined")
  | JNull => Some (lit "null")
  | JBool true => Some (lit "true")
  | JBool false => Some (lit "false")
  | JNum _ | JObject => toStringOther v
  end.

(** [`${v}`] *)
Definition ToString (toStringOther : JsValue -> option JsString)
    (v : JsValue) : Handler JsString :=
  match toStringValue toStringOther v with
  | Some s => ret s
  | None => throw (TypeError (lit "Cannot convert object to primitive value"))
  end.

(** [const { format_valid, mx_found, smtp_check } = verificationResponse.data;] *)
Definition destructure (data : ResponseData) : Handler MailboxlayerData :=
  match data with
  | DataObject d => ret d
  | DataNull =>
      throw (TypeError
               (lit "Cannot destructure property 'format_valid' of 'verificationResponse.data' as it is null."))
  end.

Definition verificationUrl (mailboxApiKey email : JsString) : JsString :=
  lit "http://apilayer.net/api/check?access_key=" ++ mailboxApiKey
  ++ lit "&email=" ++ email ++ lit "&smtp=1&format=1".

(** Lines 34-56: the inner [try] block, whose [catch] only logs. *)
Definition verifyEmail (toStringOther : JsValue -> option JsString)
    (w : World) (mailboxApiKey : JsString) (email : JsValue) : Handler unit :=
  tryCatch
    (e <- ToString toStringOther email ;;
     data <- axios_get w (verificationUrl mailboxApiKey e) ;;
     d <- destructure data ;;
     _ <- ToString toStringOther email ;;
     let isVerified :=
       js_and (js_and (format_valid d) (mx_found d)) (smtp_check d) in
     if negb (ToBoolean isVerified) then
       respond 400 false (lit "Invalid or unverified email address.")
     else ret tt)
    (fun err => ret tt).

Definition transporter (env : Env) : Transport :=
  {| service := lit "gmail";
     auth_user := EMAIL_USER env;
     auth_pass := EMAIL_PASS env;
     connectionTimeout := 10000;
     greetingTimeout := 10000;
     socketTimeout := 10000 |}.

(** [process.env.RECEIVER_EMAIL || 'rrwr@gmail.com'] *)
Definition receiver (env : Env) : JsString :=
  match RECEIVER_EMAIL env with
  | Some (c :: s) => c :: s
  | _ => lit "rrwr@gmail.com"
  end.

Definition mailOptions (env : Env) (email : JsValue)
    (name' email' message' : JsString) : MailOptions :=
  {| from := EMAIL_USER env;
     to := receiver env;
     replyTo := email;
     subject := lit "Portfolio Contact: Message from " ++ name';
     text :=
       lit "You have received a new message from your portfolio contact form."
       ++ newline ++ newline ++ lit "Name: " ++ name'
       ++ newline ++ lit "User Email: " ++ email'
       ++ newline ++ newline ++ lit "Message:" ++ newline ++ message';
     html :=
       lit "<h3>New Portfolio Message</h3><p><strong>Name:</strong> " ++ name'
       ++ lit "</p><p><strong>Email:</strong> " ++ email'
       ++ lit "</p><p><strong>Message:</strong><br/>" ++ message'
       ++ lit "</p>" |}.

(** Lines 59-88: the dispatch.  The template literals of [mailOptions]
    convert [name], then [email], then [message]; the later occurrences
    convert the same values again and are not repeated here. *)
Definition send (toStringOther : JsValue -> option JsString)
    (env : Env) (w : World) (body : Body) : Handler unit :=
  name' <- ToString toStringOther (body_name body) ;;
  email' <- ToString toStringOther (body_email body) ;;
  message' <- ToString toStringOther (body_message body) ;;
  _ <- sendMail w (transporter env)
         (mailOptions env (body_email body) name' email' message') ;;
  respond 200 true (lit "Message sent successfully!").

(** Lines 20-94. *)
Definition handleContact (toStringOther : JsValue -> option JsString)
    (env : Env) (w : World) (body : Body) : Handler unit :=
  let name := body_name body in
  let email := body_email body in
  let message := body_message body in
  if negb (ToBoolean name) || negb (ToBoolean email) || negb (ToBoolean message)
  then respond 400 false (lit "All fields are required.")
  else
    tryCatch
      (_ <- match MAILBOXLAYER_API_KEY env with
            | Some (c :: k) => verifyEmail toStringOther w (c :: k) email
            | _ => ret tt
            end ;;
       send toStringOther env w body)
      (fun error => respond 500 false (lit "Internal server error.")).

(** What the dispatch stage answers: line 88, or the [catch] block of
    line 90. *)
Definition dispatchResponse (result : SendResult) : Response :=
  match result with
  | SendResolved _ => sent
  | SendRejected _ => failure 500 "Internal server error."
  end.

End Legacy.

(** A submission whose three fields are the strings given. *)
Definition textBody (name email message : JsString) : Body :=
  {| body_name := JStr name;
     body_email := JStr email;
     body_message := JStr message |}.

Definition legacyUnreachable : Legacy.World :=
  {| Legacy.axios_get_result :=
       fun _ => AxiosRejected (Error (lit "connect ETIMEDOUT"));
     Legacy.sendMail_result := fun _ _ => SendResolved (lit "<1@gmail.com>") |}.

Definition legacyAnswering (d : MailboxlayerData) : Legacy.World :=
  {| Legacy.axios_get_result := fun _ => AxiosResolved (DataObject d);
     Legacy.sendMail_result := fun _ _ => SendResolved (lit "<1@gmail.com>") |}.

(** No conversion of numbers or objects is needed for text. *)
Definition noConversion : JsValue -> option (list N) := fun _ => None.

(** ** Inputs for the verification answers *)

(** An answer given by its error, its two flags and its score; the
    mailbox check passed. *)
Definition sampleAnswer (err fv mx : JsValue) (s : ScoreValue)
  : MailboxlayerData :=
  {| error := err;
     format_valid := fv;
     mx_found := mx;
     smtp_check := JBool true;
     score := s |}.

(** The world in which the verification service answers [data] and the
    mail transport accepts the mail. *)
Definition answersWith (data : ResponseData) : World :=
  answering (sampleWorld ScoreMissing) data.

(** A submission whose name is the number 7 and that has no other
    field: the JSON text [{"name": 7}]. *)
Definition numericNameBody : Body :=
  {| body_name := JNum 7%float;
     body_email := JUndefined;
     body_message := JUndefined |}.

(** Line 154 with [req.body] as [express.json()] left it: an object
    whose properties can be read, or [undefined] when no body was parsed,
    in which case the destructuring throws. *)
Definition contactRoute (env : Env) (w : World) (reqBody : option Body)
  : Handler unit :=
  match reqBody with
  | Some body => handleContact env w body
  | None =>
      throw (TypeError
               (lit "Cannot destructure property 'name' of 'req.body' as it is undefined."))
  end.

(* ================================================================== *)
(** * Properties *)

(** ** Regular expression matching *)

Lemma Matches_nil_nullable r s : Matches r s -> s = [] -> nullable r = true.
Proof.
  induction 1 as [ | p c Hp | r1 r2 u v _ IH1 _ IH2 | r1 r2 u _ IH
                 | r1 r2 u _ IH | r | r u v _ _ _ _ ]; intros Hs; simpl; trivial.
  - discriminate Hs.
  - apply app_eq_nil in Hs as [-> ->]. now rewrite IH1, IH2.
  - now rewrite IH.
  - rewrite IH by assumption. apply orb_true_r.
Qed.

Lemma nullable_Matches r : nullable r = true <-> Matches r [].
Proof.
  split; [ | intros H; now apply (Matches_nil_nullable r [] H) ].
  induction r as [ | | p | r1 IH1 r2 IH2 | r1 IH1 r2 IH2 | r IH ]; simpl;
    intros H; try discriminate H.
  - constructor.
  - apply andb_true_iff in H as [H1 H2].
    change (@nil N) with (@nil N ++ []). constructor; auto.
  - apply orb_true_iff in H as [H1 | H2]; [apply MAltL | apply MAltR]; auto.
  - constructor.
Qed.

Lemma Matches_star_cons r c s :
  Matches (RStar r) (c :: s) ->
  exists u v, s = u ++ v /\ Matches r (c :: u) /\ Matches (RStar r) v.
Proof.
  intros H. remember (RStar r) as r' eqn:Hr. remember (c :: s) as s' eqn:Hs.
  revert s Hs.
  induction H as [ | | | | | | r0 u v Hu _ Hv IHv ]; try discriminate Hr.
  - intros s Hs. discriminate Hs.
  - injection Hr as ->. intros s Hs. destruct u as [ | c' u ]; simpl in Hs.
    + apply IHv; trivial.
    + injection Hs as -> <-. exists u, v. auto.
Qed.

Lemma deriv_Matches r : forall c s, Matches (deriv c r) s <-> Matches r (c :: s).
Proof.
  induction r as [ | | p | r1 IH1 r2 IH2 | r1 IH1 r2 IH2 | r IH ];
    intros c s; simpl.
  - split; intros H; inversion H.
  - split; intros H; inversion H.
  - destruct (p c) eqn:Hp; split; intros H; inversion H; subst.
    + now constructor.
    + constructor.
    + congruence.
  - assert (Hcat : Matches (RCat (deriv c r1) r2) s ->
                   Matches (RCat r1 r2) (c :: s)).
    { intros H. inversion H; subst. rewrite app_comm_cons.
      constructor; [ now apply IH1 | assumption ]. }
    assert (Hinv : Matches (RCat r1 r2) (c :: s) ->
                   Matches (RCat (deriv c r1) r2) s \/
                   (nullable r1 = true /\ Matches (deriv c r2) s)).
    { intros H. inversion H as [ | | ? ? u v Hu Hv [Hr1 Hr2] Heq | | | | ].
      subst. destruct u as [ | c' u ]; simpl in Heq.
      - right. subst v. split; [ now apply nullable_Matches | now apply IH2 ].
      - injection Heq as -> <-. left. constructor; [ now apply IH1 | assumption ]. }
    destruct (nullable r1) eqn:Hn; split; intros H.
    + inversion H; subst; [ now apply Hcat | ].
      change (c :: s) with ([] ++ c :: s).
      constructor; [ now apply nullable_Matches | now apply IH2 ].
    + destruct (Hinv H) as [H1 | [_ H2]]; [ now apply MAltL | now apply MAltR ].
    + now apply Hcat.
    + destruct (Hinv H) as [H1 | [Hn' _]]; [ assumption | congruence ].
  - split; intros H; inversion H; subst.
    + apply MAltL. now apply IH1.
    + apply MAltR. now apply IH2.
    + apply MAltL. now apply IH1.
    + apply MAltR. now apply IH2.
  - split; intros H.
    + inversion H; subst. rewrite app_comm_cons.
      constructor; [ now apply IH | assumption ].
    + apply Matches_star_cons in H as (u & v & -> & Hu & Hv).
      constructor; [ now apply IH | assumption ].
Qed.

(** [test] decides membership in the language. *)
Lemma test_Matches s : forall r, test r s = true <-> Matches r s.
Proof.
  unfold test. induction s as [ | c s IH ]; intros r; simpl.
  - apply nullable_Matches.
  - rewrite IH. apply deriv_Matches.
Qed.

Lemma Matches_star_class p s :
  Matches (RStar (RClass p)) s <-> forallb p s = true.
Proof.
  split.
  - intros H. remember (RStar (RClass p)) as r eqn:Hr.
    induction H as [ | | | | | | r0 u v Hu _ _ IHv ]; try discriminate Hr.
    + reflexivity.
    + injection Hr as ->. inversion Hu as [ | ? c Hc | | | | | ]; subst.
      simpl. now rewrite Hc, IHv.
  - induction s as [ | c s IH ]; simpl; intros H.
    + constructor.
    + apply andb_true_iff in H as [Hc Hs].
      change (c :: s) with ([c] ++ s).
      constructor; [ now constructor | auto ].
Qed.

Lemma Matches_plus_class p s :
  Matches (RPlus (RClass p)) s <-> s <> [] /\ forallb p s = true.
Proof.
  unfold RPlus. split.
  - intros H. inversion H as [ | | ? ? u v Hu Hv | | | | ]; subst.
    inversion Hu as [ | ? c Hc | | | | | ]; subst.
    apply Matches_star_class in Hv. simpl. rewrite Hc, Hv. now split.
  - intros [Hne Hall]. destruct s as [ | c s ]; [ congruence | ].
    simpl in Hall. apply andb_true_iff in Hall as [Hc Hs].
    change (c :: s) with ([c] ++ s).
    constructor; [ now constructor | now apply Matches_star_class ].
Qed.

Lemma Matches_char c s : Matches (RChar c) s <-> s = [c].
Proof.
  unfold RChar. split.
  - intros H. inversion H as [ | ? c' Hc | | | | | ]; subst.
    apply N.eqb_eq in Hc. now subst.
  - intros ->. constructor. apply N.eqb_refl.
Qed.

Lemma Matches_cat r1 r2 s :
  Matches (RCat r1 r2) s <->
  exists u v, s = u ++ v /\ Matches r1 u /\ Matches r2 v.
Proof.
  split.
  - intros H. inversion H; subst. eauto.
  - intros (u & v & -> & Hu & Hv). now constructor.
Qed.

(** The pattern of the source denotes the shape [local@domain.tld]. *)
Lemma emailRegex_shape s : test emailRegex s = true <-> local_at_domain_tld s.
Proof.
  rewrite test_Matches. unfold emailRegex, local_at_domain_tld. split.
  - intros H.
    apply Matches_cat in H as (l & s1 & -> & Hl & H).
    apply Matches_cat in H as (a & s2 & -> & Ha & H).
    apply Matches_cat in H as (d & s3 & -> & Hd & H).
    apply Matches_cat in H as (b & t & -> & Hb & Ht).
    apply Matches_char in Ha as ->. apply Matches_char in Hb as ->.
    apply Matches_plus_class in Hl as [? ?].
    apply Matches_plus_class in Hd as [? ?].
    apply Matches_plus_class in Ht as [? ?].
    exists l, d, t. simpl. auto 10.
  - intros (l & d & t & -> & Hl & Hd & Ht & Al & Ad & At).
    apply Matches_cat. exists l, (64%N :: d ++ 46%N :: t).
    split; [ reflexivity | ]. split; [ now apply Matches_plus_class | ].
    apply Matches_cat. exists [64%N], (d ++ 46%N :: t).
    split; [ reflexivity | ]. split; [ now apply Matches_char | ].
    apply Matches_cat. exists d, (46%N :: t).
    split; [ reflexivity | ]. split; [ now apply Matches_plus_class | ].
    apply Matches_cat. exists [46%N], t.
    split; [ reflexivity | ]. split; [ now apply Matches_char | ].
    now apply Matches_plus_class.
Qed.

Example emailRegex_accepts : test emailRegex (lit "ann@example.com") = true.
Proof. reflexivity. Qed.

Example emailRegex_rejects_no_tld : test emailRegex (lit "ann@example") = false.
Proof. reflexivity. Qed.

Example emailRegex_rejects_inner_space :
  test emailRegex (lit "an n@example.com") = false.
Proof. reflexivity. Qed.

Example emailRegex_rejects_two_at :
  test emailRegex (lit "a@b@example.com") = false.
Proof. reflexivity. Qed.

Example trim_example : trim (lit "  Ann ") = lit "Ann".
Proof. reflexivity. Qed.

(** ** Trimming *)

Lemma trimStart_nil s : trimStart s = [] <-> forallb isSpace s = true.
Proof.
  induction s as [ | c s IH ]; simpl.
  - tauto.
  - destruct (isSpace c); simpl; [ exact IH | split; discriminate ].
Qed.

Lemma trimStart_head s c s' : trimStart s = c :: s' -> isSpace c = false.
Proof.
  induction s as [ | c0 s IH ]; simpl; [ discriminate | ].
  destruct (isSpace c0) eqn:Hc; [ exact IH | ].
  intros [= <- _]. exact Hc.
Qed.

Lemma forallb_rev_true (p : N -> bool) (l : list N) :
  forallb p (rev l) = true -> forallb p l = true.
Proof.
  rewrite !forallb_forall. intros H c Hc. apply H. now apply in_rev in Hc.
Qed.

(** A string trims to the empty string exactly when it consists of
    white space and line terminators only. *)
Lemma trim_nil s : trim s = [] <-> forallb isSpace s = true.
Proof.
  unfold trim, trimEnd. rewrite <- trimStart_nil. split.
  - intros H. apply (f_equal (@rev N)) in H. rewrite rev_involutive in H.
    simpl in H. apply trimStart_nil, forallb_rev_true in H.
    destruct (trimStart s) as [ | c s' ] eqn:Hs; [ reflexivity | ].
    apply trimStart_head in Hs. simpl in H. now rewrite Hs in H.
  - intros ->. reflexivity.
Qed.

(** ** Number comparison *)

Lemma SFcompare_swap a b :
  SFcompare b a =
  match SFcompare a b with Some c => Some (CompOpp c) | None => None end.
Proof.
  destruct a as [ s1 | s1 | | s1 m1 e1 ], b as [ s2 | s2 | | s2 m2 e2 ];
    simpl; try reflexivity;
    try (destruct s1; reflexivity); try (destruct s2; reflexivity);
    try (destruct s1, s2; reflexivity).
  destruct s1, s2; simpl; try reflexivity; f_equal;
    rewrite (Z.compare_antisym e1 e2); destruct (e1 ?= e2)%Z; simpl;
    try reflexivity.
  - f_equal. exact (eq_sym (Pos.compare_cont_antisym m1 m2 Eq)).
  - exact (eq_sym (Pos.compare_cont_antisym m1 m2 Eq)).
Qed.

(** [y <= x] excludes [x < y], for every binary64 value (NaN included:
    then neither holds). *)
Lemma leb_not_ltb (x y : float) :
  PrimFloat.leb y x = true -> PrimFloat.ltb x y = false.
Proof.
  rewrite leb_spec, ltb_spec. unfold SFleb, SFltb.
  rewrite (SFcompare_swap (Prim2SF y) (Prim2SF x)).
  destruct (SFcompare (Prim2SF y) (Prim2SF x)) as [ [ | | ] | ];
    simpl; congruence.
Qed.

(** ** The handler monad *)

Lemma bind_ret {A B} (a : A) (k : A -> Handler B) : bind (ret a) k = k a.
Proof. unfold bind, ret. now destruct (k a). Qed.

Lemma bind_respond {A B} st ok msg (k : A -> Handler B) :
  bind (respond st ok msg) k = respond st ok msg.
Proof. reflexivity. Qed.

Lemma bind_throw {A B} e (k : A -> Handler B) : bind (throw e) k = throw e.
Proof. reflexivity. Qed.

(** ** Sanitisation *)

Lemma trimField_trimmed var v s :
  trimmed v = Some s -> trimField var v = ret s.
Proof.
  unfold trimmed, trimField. destruct v as [ | | b | x | s' | ]; simpl;
    try (intros [= <-]; reflexivity).
  - destruct b; [ discriminate | intros [= <-]; reflexivity ].
  - destruct (negb _); [ discriminate | intros [= <-]; reflexivity ].
  - intros [= <-]. destruct s' as [ | c s' ]; reflexivity.
Qed.

Lemma trimField_throws var v :
  trimmed v = None ->
  trimField var v = throw (TypeError (lit var ++ lit ".trim is not a function")).
Proof.
  unfold trimmed, trimField. destruct v as [ | | b | x | s' | ]; simpl;
    try discriminate; try reflexivity.
  - destruct b; [ reflexivity | discriminate ].
  - destruct (negb _); [ reflexivity | discriminate ].
Qed.

Lemma isEmpty_false (s : JsString) : s <> [] -> isEmpty s = false.
Proof. destruct s; [ congruence | reflexivity ]. Qed.

Lemma isEmpty_true (s : JsString) : isEmpty s = true <-> s = [].
Proof. destruct s; simpl; split; congruence. Qed.

(** With the three fields trimmed, the handler is its chain of checks. *)
Lemma handleContact_trimmed env w body name email message :
  trimmed (body_name body) = Some name ->
  trimmed (body_email body) = Some email ->
  trimmed (body_message body) = Some message ->
  handleContact env w body =
    if isEmpty name || isEmpty email || isEmpty message then
      respond 400 false (lit "All fields are required.")
    else if negb (test emailRegex email) then
      respond 400 false (lit "Invalid email format.")
    else if 2000 <? length message then
      respond 400 false (lit "Message is too long (limit 2000 chars).")
    else if negb (ToBoolean (getenv (RECEIVER_EMAIL env))) then
      respond 500 false
        (lit "Server configuration error: No receiver email configured.")
    else verifyAndSend env w name email message.
Proof.
  intros Hn He Hm. unfold handleContact.
  rewrite (trimField_trimmed "name" _ _ Hn), bind_ret.
  rewrite (trimField_trimmed "email" _ _ He), bind_ret.
  rewrite (trimField_trimmed "message" _ _ Hm), bind_ret.
  reflexivity.
Qed.

(** A valid submission on a server with a recipient reaches the
    verification stage. *)
Lemma handleContact_valid env w body name email message r :
  valid_submission body name email message ->
  configured (RECEIVER_EMAIL env) r ->
  handleContact env w body = verifyAndSend env w name email message.
Proof.
  intros (Hn & He & Hm & Nn & Ne & Nm & Hre & Hlen) [Hr Nr].
  rewrite (handleContact_trimmed env w body _ _ _ Hn He Hm).
  rewrite (isEmpty_false _ Nn), (isEmpty_false _ Ne), (isEmpty_false _ Nm), Hre.
  simpl orb. simpl negb. cbv iota.
  replace (2000 <? length message) with false
    by (symmetry; apply Nat.ltb_ge; exact Hlen).
  rewrite Hr. simpl getenv. simpl ToBoolean. rewrite (isEmpty_false _ Nr).
  reflexivity.
Qed.

(** ** The verification stage *)

Lemma verifyEmail_rejected w url e :
  axios_get_result w url = AxiosRejected e ->
  verifyEmail w url = (Return verificationFailed, [CallAxiosGet url]).
Proof.
  intros H. unfold verifyEmail, axios_get. now rewrite H.
Qed.

(** A [null] body ends in the same [catch] block. *)
Lemma verifyEmail_null w url :
  axios_get_result w url = AxiosResolved DataNull ->
  verifyEmail w url = (Return verificationFailed, [CallAxiosGet url]).
Proof.
  intros H. unfold verifyEmail, axios_get. now rewrite H.
Qed.

Lemma verifyEmail_object w url d :
  axios_get_result w url = AxiosResolved (DataObject d) ->
  verifyEmail w url =
    (if ToBoolean (error d) then
       Return (failure 500 "Email verification service unavailable.")
     else if negb (ToBoolean (js_and (format_valid d) (mx_found d))) then
       Return (failure 400 "Email address appears invalid (MX record not found).")
     else
       match js_lt (score d) threshold with
       | None => Return verificationFailed
       | Some true => Return (failure 400 "Email blocked by security score.")
       | Some false => Normal true
       end,
     [CallAxiosGet url]).
Proof.
  intros H. unfold verifyEmail, axios_get. rewrite H.
  cbv beta iota delta [bind readData ret].
  destruct (ToBoolean (error d)); [ reflexivity | ].
  destruct (negb _); [ reflexivity | ].
  destruct (js_lt _ _) as [ [ | ] | ]; reflexivity.
Qed.

Lemma verifyAndSend_key env w name email message k :
  configured (MAILBOXLAYER_API_KEY env) k ->
  verifyAndSend env w name email message =
    tryCatch
      (shouldSend <- verifyEmail w (verificationUrl k email) ;;
       if negb shouldSend then
         respond 400 false (lit "Email validation failed.")
       else
         _ <- sendMail w (transporter env)
                (mailOptions env name email message) ;;
         respond 200 true (lit "Message sent successfully!"))
      (fun error =>
         respond 500 false
           (lit "Internal server error: " ++ error_message error)).
Proof.
  intros [Hk Nk]. unfold verifyAndSend. rewrite Hk.
  destruct k as [ | c k ]; [ congruence | reflexivity ].
Qed.

(** A response sent by the verification stage ends the request: nothing
    is dispatched. *)
Lemma verifyAndSend_stops env w name email message k r :
  configured (MAILBOXLAYER_API_KEY env) k ->
  verifyEmail w (verificationUrl k email)
    = (Return r, [CallAxiosGet (verificationUrl k email)]) ->
  run (verifyAndSend env w name email message)
    = (Responded r, [CallAxiosGet (verificationUrl k email)]).
Proof.
  intros Hk Hv. rewrite (verifyAndSend_key env w name email message k Hk), Hv.
  reflexivity.
Qed.

(** A verification that lets the request through is followed by exactly
    one dispatch, whose result decides the response. *)
Lemma verifyAndSend_dispatches env w name email message k :
  configured (MAILBOXLAYER_API_KEY env) k ->
  verifyEmail w (verificationUrl k email)
    = (Normal true, [CallAxiosGet (verificationUrl k email)]) ->
  run (verifyAndSend env w name email message)
    = (Responded (dispatchResponse
                    (sendMail_result w (transporter env)
                       (mailOptions env name email message))),
       [CallAxiosGet (verificationUrl k email);
        CallSendMail (transporter env) (mailOptions env name email message)]).
Proof.
  intros Hk Hv. rewrite (verifyAndSend_key env w name email message k Hk), Hv.
  unfold bind, sendMail. simpl negb. cbv iota.
  destruct (sendMail_result _ _ _); reflexivity.
Qed.

Lemma ToBoolean_js_and a b :
  ToBoolean (js_and a b) = ToBoolean a && ToBoolean b.
Proof. unfold js_and. destruct (ToBoolean a) eqn:Ha; simpl; congruence. Qed.

(** A valid submission on a configured server whose verification answer
    passes every test is dispatched exactly once. *)
Lemma handleContact_dispatches env w body name email message r k d :
  valid_submission body name email message ->
  configured (RECEIVER_EMAIL env) r ->
  configured (MAILBOXLAYER_API_KEY env) k ->
  axios_get_result w (verificationUrl k email) = AxiosResolved (DataObject d) ->
  ToBoolean (error d) = false ->
  ToBoolean (format_valid d) = true ->
  ToBoolean (mx_found d) = true ->
  js_lt (score d) threshold = Some false ->
  run (handleContact env w body)
    = (Responded (dispatchResponse
                    (sendMail_result w (transporter env)
                       (mailOptions env name email message))),
       [CallAxiosGet (verificationUrl k email);
        CallSendMail (transporter env) (mailOptions env name email message)]).
Proof.
  intros Hv Hr Hk Hd He Hf Hm Hs.
  rewrite (handleContact_valid env w body name email message r Hv Hr).
  apply (verifyAndSend_dispatches env w name email message k Hk).
  rewrite (verifyEmail_object w _ d Hd), He, ToBoolean_js_and, Hf, Hm, Hs.
  reflexivity.
Qed.

Lemma sample_valid :
  valid_submission annBody (lit "Ann") (lit "ann@example.com") (lit "Hi").
Proof.
  unfold valid_submission. repeat split; try discriminate.
  simpl. lia.
Defined.

Lemma sample_configured (v : string) :
  v <> EmptyString -> configured (Some (lit v)) (lit v).
Proof.
  intros Hv. split; [ reflexivity | ]. destruct v; [ congruence | discriminate ].
Defined.

(** ** The claims *)

(** C1.  A valid submission on a configured server, verified with format
    valid, mail exchange found, no error and a score of at least 0.3,
    whose dispatch succeeds, is answered 200 "Message sent successfully!";
    the one mail that is dispatched goes to [RECEIVER_EMAIL] and has the
    trimmed submitted address as its reply-to. *)
Theorem contact_success env w body name email message r k d x messageId :
  valid_submission body name email message ->
  configured (RECEIVER_EMAIL env) r ->
  configured (MAILBOXLAYER_API_KEY env) k ->
  axios_get_result w (verificationUrl k email) = AxiosResolved (DataObject d) ->
  ToBoolean (error d) = false ->
  ToBoolean (format_valid d) = true ->
  ToBoolean (mx_found d) = true ->
  score d = ScoreNum x ->
  PrimFloat.leb threshold x = true ->
  sendMail_result w (transporter env) (mailOptions env name email message)
    = SendResolved messageId ->
  exists o : MailOptions,
    run (handleContact env w body)
      = (Responded sent,
         [CallAxiosGet (verificationUrl k email);
          CallSendMail (transporter env) o]) /\
    to o = Some r /\
    replyTo o = email /\
    trimmed (body_email body) = Some email.
Proof.
  intros Hv Hr Hk Hd He Hf Hm Hx Hle Hsend.
  exists (mailOptions env name email message).
  assert (Hs : js_lt (score d) threshold = Some false).
  { rewrite Hx. unfold js_lt. simpl. f_equal. now apply leb_not_ltb. }
  rewrite (handleContact_dispatches env w body name email message r k d
             Hv Hr Hk Hd He Hf Hm Hs), Hsend.
  destruct Hr as [Hr _]. destruct Hv as (_ & Hemail & _).
  repeat split; assumption.
Qed.

Lemma contact_success_witness :
  exists o : MailOptions,
    run (handleContact sampleEnv (sampleWorld (ScoreNum 0.5%float)) annBody)
      = (Responded sent,
         [CallAxiosGet annUrl; CallSendMail (transporter sampleEnv) o]) /\
    to o = Some (lit "owner@example.org") /\
    replyTo o = lit "ann@example.com" /\
    trimmed (body_email annBody) = Some (lit "ann@example.com").
Proof.
  apply contact_success
    with (name := lit "Ann") (message := lit "Hi") (k := lit "k3y")
         (d := goodAnswer (ScoreNum 0.5%float)) (x := 0.5%float)
         (messageId := lit "<1@gmail.com>").
  - exact sample_valid.
  - apply (sample_configured "owner@example.org"). discriminate.
  - apply (sample_configured "k3y"). discriminate.
  - reflexivity.
  - reflexivity.
  - reflexivity.
  - reflexivity.
  - reflexivity.
  - reflexivity.
  - reflexivity.
Defined.

(** C2.  When the verification call itself fails, a submission that
    passed every earlier check is answered 500 with a failure envelope,
    and [sendMail] is invoked zero times. *)
Theorem verification_unreachable_no_dispatch
    env w body name email message r k e :
  valid_submission body name email message ->
  configured (RECEIVER_EMAIL env) r ->
  configured (MAILBOXLAYER_API_KEY env) k ->
  axios_get_result w (verificationUrl k email) = AxiosRejected e ->
  run (handleContact env w body)
    = (Responded verificationFailed, [CallAxiosGet (verificationUrl k email)]) /\
  status verificationFailed = 500 /\
  success (json verificationFailed) = false /\
  dispatchCount (snd (run (handleContact env w body))) = 0.
Proof.
  intros Hv Hr Hk He.
  assert (Hrun : run (handleContact env w body)
                 = (Responded verificationFailed,
                    [CallAxiosGet (verificationUrl k email)])).
  { rewrite (handleContact_valid env w body name email message r Hv Hr).
    apply (verifyAndSend_stops env w name email message k _ Hk).
    now apply (verifyEmail_rejected w _ e). }
  rewrite Hrun. repeat split.
Qed.

Lemma verification_unreachable_no_dispatch_witness :
  run (handleContact sampleEnv unreachableWorld annBody)
    = (Responded verificationFailed, [CallAxiosGet annUrl]) /\
  status verificationFailed = 500 /\
  success (json verificationFailed) = false /\
  dispatchCount (snd (run (handleContact sampleEnv unreachableWorld annBody))) = 0.
Proof.
  apply verification_unreachable_no_dispatch
    with (name := lit "Ann") (email := lit "ann@example.com")
         (message := lit "Hi") (r := lit "owner@example.org")
         (k := lit "k3y") (e := Error (lit "connect ETIMEDOUT")).
  - exact sample_valid.
  - apply (sample_configured "owner@example.org"). discriminate.
  - apply (sample_configured "k3y"). discriminate.
  - reflexivity.
Defined.

(** C3, as the code has it.  For a valid submission on a configured
    server, the body of the verification answer is handled in this order:
    a [null] body gives 500 "Email verification failed. ..."; otherwise
    a truthy [error] gives 500; otherwise a falsy [format_valid] or
    [mx_found] gives 400; otherwise a score that converts to a number
    below 0.3 gives 400, a score that converts to a number not below
    0.3 (a missing score converts to NaN) leads to the dispatch, and a
    score whose conversion throws gives the 500 of a failed
    verification.  Nothing is dispatched except in the one case. *)
Theorem verification_response_handling
    env w body name email message r k data :
  valid_submission body name email message ->
  configured (RECEIVER_EMAIL env) r ->
  configured (MAILBOXLAYER_API_KEY env) k ->
  axios_get_result w (verificationUrl k email) = AxiosResolved data ->
  let url := verificationUrl k email in
  let out := run (handleContact env w body) in
  match data with
  | DataNull => out = (Responded verificationFailed, [CallAxiosGet url])
  | DataObject d =>
      (ToBoolean (error d) = true ->
       out = (Responded (failure 500 "Email verification service unavailable."),
              [CallAxiosGet url])) /\
      (ToBoolean (error d) = false ->
       ToBoolean (format_valid d) = false \/ ToBoolean (mx_found d) = false ->
       out = (Responded
                (failure 400
                   "Email address appears invalid (MX record not found)."),
              [CallAxiosGet url])) /\
      (ToBoolean (error d) = false ->
       ToBoolean (format_valid d) = true ->
       ToBoolean (mx_found d) = true ->
       forall x,
         ToNumber (score d) = Some x ->
         PrimFloat.ltb x 0x1.3333333333333p-2 = true ->
         out = (Responded (failure 400 "Email blocked by security score."),
                [CallAxiosGet url])) /\
      (ToBoolean (error d) = false ->
       ToBoolean (format_valid d) = true ->
       ToBoolean (mx_found d) = true ->
       forall x,
         ToNumber (score d) = Some x ->
         PrimFloat.ltb x 0x1.3333333333333p-2 = false ->
         out = (Responded (dispatchResponse
                             (sendMail_result w (transporter env)
                                (mailOptions env name email message))),
                [CallAxiosGet url;
                 CallSendMail (transporter env)
                   (mailOptions env name email message)])) /\
      (ToBoolean (error d) = false ->
       ToBoolean (format_valid d) = true ->
       ToBoolean (mx_found d) = true ->
       ToNumber (score d) = None ->
       out = (Responded verificationFailed, [CallAxiosGet url]))
  end.
Proof.
  intros Hv Hr Hk Hd url out. subst url out.
  rewrite (handleContact_valid env w body name email message r Hv Hr).
  destruct data as [ | d ].
  { apply (verifyAndSend_stops env w name email message k _ Hk).
    now apply verifyEmail_null. }
  pose proof (verifyEmail_object w _ d Hd) as Hobj.
  rewrite ToBoolean_js_and in Hobj. unfold js_lt in Hobj.
  repeat split.
  - intros He. rewrite He in Hobj.
    now apply (verifyAndSend_stops env w name email message k _ Hk).
  - intros He Hflag. rewrite He in Hobj.
    assert (Hand : ToBoolean (format_valid d) && ToBoolean (mx_found d) = false).
    { destruct Hflag as [-> | ->]; [ reflexivity | apply andb_false_r ]. }
    rewrite Hand in Hobj.
    now apply (verifyAndSend_stops env w name email message k _ Hk).
  - intros He Hf Hm x Hx Hlt.
    rewrite He, Hf, Hm, Hx in Hobj.
    change threshold with 0x1.3333333333333p-2%float in Hobj.
    rewrite Hlt in Hobj.
    now apply (verifyAndSend_stops env w name email message k _ Hk).
  - intros He Hf Hm x Hx Hlt.
    rewrite He, Hf, Hm, Hx in Hobj.
    change threshold with 0x1.3333333333333p-2%float in Hobj.
    rewrite Hlt in Hobj.
    now apply (verifyAndSend_dispatches env w name email message k Hk).
  - intros He Hf Hm Hx. rewrite He, Hf, Hm, Hx in Hobj.
    now apply (verifyAndSend_stops env w name email message k _ Hk).
Qed.

Lemma verification_response_handling_witness :
  let run_with data := run (handleContact sampleEnv (answersWith data) annBody) in
  let answer err fv mx s := DataObject (sampleAnswer err fv mx s) in
  let stopped r := (Responded r, [CallAxiosGet annUrl]) in
  let dispatched :=
    (Responded sent,
     [CallAxiosGet annUrl;
      CallSendMail (transporter sampleEnv) (annMail sampleEnv)]) in
  let yes := JBool true in
  let unavailable := failure 500 "Email verification service unavailable." in
  let invalid :=
    failure 400 "Email address appears invalid (MX record not found)." in
  let blocked := failure 400 "Email blocked by security score." in
  run_with DataNull = stopped verificationFailed /\
  run_with (answer JObject yes yes (ScoreNum 0.5%float)) = stopped unavailable /\
  run_with (answer JUndefined (JBool false) yes (ScoreNum 0.5%float))
    = stopped invalid /\
  run_with (answer JUndefined yes JUndefined (ScoreNum 0.5%float))
    = stopped invalid /\
  run_with (answer JUndefined yes yes (ScoreNum 0.25%float)) = stopped blocked /\
  run_with (answer JUndefined yes yes ScoreNull) = stopped blocked /\
  run_with (answer JUndefined yes yes (ScoreBool false)) = stopped blocked /\
  run_with (answer JUndefined yes yes (ScoreOther (Some 0.125%float)))
    = stopped blocked /\
  run_with (answer JUndefined yes yes (ScoreNum 0x1.3333333333333p-2%float))
    = dispatched /\
  run_with (answer JUndefined yes yes (ScoreNum 0.5%float)) = dispatched /\
  run_with (answer JUndefined yes yes (ScoreBool true)) = dispatched /\
  run_with (answer JUndefined yes yes ScoreMissing) = dispatched /\
  run_with (answer JUndefined yes yes (ScoreOther None))
    = stopped verificationFailed.
Proof.
  intros run_with answer stopped dispatched yes unavailable invalid blocked.
  assert (T := fun data =>
    verification_response_handling sampleEnv (answersWith data) annBody
      (lit "Ann") (lit "ann@example.com") (lit "Hi")
      (lit "owner@example.org") (lit "k3y") data
      sample_valid
      (sample_configured "owner@example.org" ltac:(discriminate))
      (sample_configured "k3y" ltac:(discriminate))
      eq_refl).
  cbv beta zeta in T.
  split; [ exact (T DataNull) | ].
  split; [ apply (proj1 (T (answer JObject yes yes (ScoreNum 0.5%float))));
           reflexivity | ].
  split; [ apply (proj1 (proj2
             (T (answer JUndefined (JBool false) yes (ScoreNum 0.5%float))))) ;
           [ reflexivity | left; reflexivity ] | ].
  split; [ apply (proj1 (proj2
             (T (answer JUndefined yes JUndefined (ScoreNum 0.5%float))))) ;
           [ reflexivity | right; reflexivity ] | ].
  split; [ apply (proj1 (proj2 (proj2
             (T (answer JUndefined yes yes (ScoreNum 0.25%float))))))
             with (x := 0.25%float); reflexivity | ].
  split; [ apply (proj1 (proj2 (proj2
             (T (answer JUndefined yes yes ScoreNull)))))
             with (x := 0%float); reflexivity | ].
  split; [ apply (proj1 (proj2 (proj2
             (T (answer JUndefined yes yes (ScoreBool false))))))
             with (x := 0%float); reflexivity | ].
  split; [ apply (proj1 (proj2 (proj2
             (T (answer JUndefined yes yes (ScoreOther (Some 0.125%float)))))))
             with (x := 0.125%float); reflexivity | ].
  split; [ apply (proj1 (proj2 (proj2 (proj2
             (T (answer JUndefined yes yes
                   (ScoreNum 0x1.3333333333333p-2%float)))))))
             with (x := 0x1.3333333333333p-2%float); reflexivity | ].
  split; [ apply (proj1 (proj2 (proj2 (proj2
             (T (answer JUndefined yes yes (ScoreNum 0.5%float)))))))
             with (x := 0.5%float); reflexivity | ].
  split; [ apply (proj1 (proj2 (proj2 (proj2
             (T (answer JUndefined yes yes (ScoreBool true)))))))
             with (x := 1%float); reflexivity | ].
  split; [ apply (proj1 (proj2 (proj2 (proj2
             (T (answer JUndefined yes yes ScoreMissing))))))
             with (x := PrimFloat.nan); reflexivity | ].
  apply (proj2 (proj2 (proj2 (proj2
           (T (answer JUndefined yes yes (ScoreOther None))))))); reflexivity.
Defined.

(** C3 as the claim states it fails: a [null] answer contains no error
    object, yet the submission is answered 500, not 400, and nothing is
    dispatched. *)
Lemma null_answer_is_neither_rejected_nor_dispatched :
  axios_get_result nullBodyWorld annUrl = AxiosResolved DataNull /\
  run (handleContact sampleEnv nullBodyWorld annBody)
    = (Responded verificationFailed, [CallAxiosGet annUrl]) /\
  status verificationFailed = 500 /\
  ~ (forall env w body name email message r k data,
       valid_submission body name email message ->
       configured (RECEIVER_EMAIL env) r ->
       configured (MAILBOXLAYER_API_KEY env) k ->
       axios_get_result w (verificationUrl k email) = AxiosResolved data ->
       match data with
       | DataObject d => ToBoolean (error d) = true
       | DataNull => False
       end \/
       (exists r400, fst (run (handleContact env w body)) = Responded r400 /\
                     status r400 = 400) \/
       dispatchCount (snd (run (handleContact env w body))) = 1).
Proof.
  split; [ reflexivity | ]. split; [ reflexivity | ]. split; [ reflexivity | ].
  intros H.
  destruct (H sampleEnv nullBodyWorld annBody
              (lit "Ann") (lit "ann@example.com") (lit "Hi")
              (lit "owner@example.org") (lit "k3y") DataNull
              sample_valid
              (sample_configured "owner@example.org" ltac:(discriminate))
              (sample_configured "k3y" ltac:(discriminate))
              eq_refl)
    as [ [] | [ (r400 & Hr & Hs) | Hc ] ].
  - vm_compute in Hr. injection Hr as <-. discriminate Hs.
  - vm_compute in Hc. discriminate Hc.
Qed.

Example low_score_blocked :
  run (handleContact sampleEnv (sampleWorld (ScoreNum 0.25%float)) annBody)
    = (Responded (failure 400 "Email blocked by security score."),
       [CallAxiosGet annUrl]).
Proof. reflexivity. Qed.




(** When each of the three fields is a string or a falsy value, a
    submission in which the name, the e-mail or the message is empty
    after trimming (a missing field trims to the empty string) is
    answered 400 "All fields are required." and no outbound call is
    made. *)
Theorem missing_fields_rejected env w body name email message :
  trimmed (body_name body) = Some name ->
  trimmed (body_email body) = Some email ->
  trimmed (body_message body) = Some message ->
  name = [] \/ email = [] \/ message = [] ->
  run (handleContact env w body)
    = (Responded (failure 400 "All fields are required."), []).
Proof.
  intros Hn He Hm Hempty.
  rewrite (handleContact_trimmed env w body _ _ _ Hn He Hm).
  assert (Hor : isEmpty name || isEmpty email || isEmpty message = true).
  { destruct Hempty as [-> | [-> | ->]]; simpl;
      rewrite ?orb_true_r; reflexivity. }
  rewrite Hor. reflexivity.
Qed.

Lemma missing_fields_rejected_witness :
  run (handleContact sampleEnv (sampleWorld ScoreMissing)
         {| body_name := JStr (lit "Ann");
            body_email := JStr (lit "ann@example.com");
            body_message := JStr (lit "   ") |})
    = (Responded (failure 400 "All fields are required."), []).
Proof.
  apply missing_fields_rejected
    with (name := lit "Ann") (email := lit "ann@example.com") (message := []).
  - reflexivity.
  - reflexivity.
  - reflexivity.
  - right. right. reflexivity.
Defined.

Example absent_fields_rejected :
  run (handleContact sampleEnv (sampleWorld ScoreMissing)
         {| body_name := JUndefined;
            body_email := JNull;
            body_message := JStr [] |})
    = (Responded (failure 400 "All fields are required."), []).
Proof. reflexivity. Qed.

(** C5.  The claim holds of the intent and not of the code: in the
    submission [{"name": 7}] the e-mail and the message are absent, so
    they are empty after trimming, but line 157 calls [trim] on the
    number before line 162 is reached; the route function throws and no
    400 "All fields are required." is sent. *)
Theorem numeric_name_is_not_answered :
  trimmed (body_email numericNameBody) = Some [] /\
  trimmed (body_message numericNameBody) = Some [] /\
  run (handleContact sampleEnv (sampleWorld ScoreMissing) numericNameBody)
    = (Rejected (TypeError (lit "name.trim is not a function")), []).
Proof. repeat split. Qed.

(** A truthy field that is not text has no [trim]: the route function
    throws before it answers. *)
Lemma non_text_field_throws env w body :
  trimmed (body_name body) = None ->
  run (handleContact env w body)
    = (Rejected (TypeError (lit "name.trim is not a function")), []).
Proof.
  intros Hn. unfold handleContact.
  rewrite (trimField_throws "name" _ Hn). reflexivity.
Qed.

(** C6.  A submission with three non-empty trimmed fields whose trimmed
    e-mail does not have the shape [local@domain.tld] is answered 400
    "Invalid email format." and no outbound call is made. *)
Theorem invalid_email_format_rejected env w body name email message :
  trimmed (body_name body) = Some name ->
  trimmed (body_email body) = Some email ->
  trimmed (body_message body) = Some message ->
  name <> [] -> email <> [] -> message <> [] ->
  ~ local_at_domain_tld email ->
  run (handleContact env w body)
    = (Responded (failure 400 "Invalid email format."), []).
Proof.
  intros Hn He Hm Nn Ne Nm Hshape.
  rewrite (handleContact_trimmed env w body _ _ _ Hn He Hm).
  rewrite (isEmpty_false _ Nn), (isEmpty_false _ Ne), (isEmpty_false _ Nm).
  destruct (test emailRegex email) eqn:Hre.
  - exfalso. apply Hshape. now apply emailRegex_shape.
  - reflexivity.
Qed.

Lemma invalid_email_format_rejected_witness :
  run (handleContact sampleEnv (sampleWorld ScoreMissing)
         {| body_name := JStr (lit "Ann");
            body_email := JStr (lit "ann@example");
            body_message := JStr (lit "Hi") |})
    = (Responded (failure 400 "Invalid email format."), []).
Proof.
  apply invalid_email_format_rejected
    with (name := lit "Ann") (email := lit "ann@example") (message := lit "Hi");
    try reflexivity; try discriminate.
  intros Hshape. apply emailRegex_shape in Hshape. discriminate Hshape.
Defined.

(** C7.  A submission that passes the presence and format checks and
    whose trimmed message has more than 2000 code units is answered 400
    "Message is too long (limit 2000 chars)." and no outbound call is
    made. *)
Theorem long_message_rejected env w body name email message :
  trimmed (body_name body) = Some name ->
  trimmed (body_email body) = Some email ->
  trimmed (body_message body) = Some message ->
  name <> [] -> email <> [] -> message <> [] ->
  local_at_domain_tld email ->
  2000 < length message ->
  run (handleContact env w body)
    = (Responded (failure 400 "Message is too long (limit 2000 chars)."), []).
Proof.
  intros Hn He Hm Nn Ne Nm Hshape Hlen.
  rewrite (handleContact_trimmed env w body _ _ _ Hn He Hm).
  rewrite (isEmpty_false _ Nn), (isEmpty_false _ Ne), (isEmpty_false _ Nm).
  apply emailRegex_shape in Hshape. rewrite Hshape.
  simpl orb. simpl negb. cbv iota.
  replace (2000 <? length message) with true
    by (symmetry; apply Nat.ltb_lt; exact Hlen).
  reflexivity.
Qed.

Lemma long_message_rejected_witness :
  run (handleContact sampleEnv (sampleWorld ScoreMissing)
         {| body_name := JStr (lit "Ann");
            body_email := JStr (lit "ann@example.com");
            body_message := JStr longMessage |})
    = (Responded (failure 400 "Message is too long (limit 2000 chars)."), []).
Proof.
  apply long_message_rejected
    with (name := lit "Ann") (email := lit "ann@example.com")
         (message := longMessage);
    try discriminate.
  - reflexivity.
  - reflexivity.
  - vm_compute. reflexivity.
  - apply emailRegex_shape. reflexivity.
  - unfold longMessage. rewrite repeat_length. lia.
Defined.

(** ** The mailbox check *)

Lemma verifyEmail_smtp_check w d v url :
  verifyEmail (answering w (DataObject (set_smtp_check v d))) url
    = verifyEmail (answering w (DataObject d)) url.
Proof. reflexivity. Qed.

Lemma verifyAndSend_smtp_check env w d v name email message :
  verifyAndSend env (answering w (DataObject (set_smtp_check v d)))
      name email message
    = verifyAndSend env (answering w (DataObject d)) name email message.
Proof.
  unfold verifyAndSend.
  destruct (MAILBOXLAYER_API_KEY env) as [ [ | c k ] | ];
    [ reflexivity | | reflexivity ].
  now rewrite (verifyEmail_smtp_check w d v (verificationUrl (c :: k) email)).
Qed.

(** Whatever the submission and the configuration, the handler does the
    same whether the answer's [smtp_check] is [v] or what it was. *)
Lemma handleContact_smtp_check env w body d v :
  handleContact env (answering w (DataObject (set_smtp_check v d))) body
    = handleContact env (answering w (DataObject d)) body.
Proof.
  unfold handleContact.
  destruct (trimmed (body_name body)) as [ name | ] eqn:Hn;
    [ rewrite (trimField_trimmed "name" _ _ Hn), !bind_ret
    | rewrite (trimField_throws "name" _ Hn); reflexivity ].
  destruct (trimmed (body_email body)) as [ email | ] eqn:He;
    [ rewrite (trimField_trimmed "email" _ _ He), !bind_ret
    | rewrite (trimField_throws "email" _ He); reflexivity ].
  destruct (trimmed (body_message body)) as [ message | ] eqn:Hm;
    [ rewrite (trimField_trimmed "message" _ _ Hm), !bind_ret
    | rewrite (trimField_throws "message" _ Hm); reflexivity ].
  rewrite verifyAndSend_smtp_check. reflexivity.
Qed.

(** C9.  An answer with no error, format valid, mail exchange found and
    a score of at least 0.3 leads to the dispatch although its
    [smtp_check] is false; and replacing [smtp_check] by any value
    changes neither the response nor the calls made. *)
Theorem smtp_check_ignored env w body name email message r k d x :
  valid_submission body name email message ->
  configured (RECEIVER_EMAIL env) r ->
  configured (MAILBOXLAYER_API_KEY env) k ->
  axios_get_result w (verificationUrl k email) = AxiosResolved (DataObject d) ->
  ToBoolean (error d) = false ->
  ToBoolean (format_valid d) = true ->
  ToBoolean (mx_found d) = true ->
  score d = ScoreNum x ->
  PrimFloat.leb threshold x = true ->
  smtp_check d = JBool false ->
  run (handleContact env w body)
    = (Responded (dispatchResponse
                    (sendMail_result w (transporter env)
                       (mailOptions env name email message))),
       [CallAxiosGet (verificationUrl k email);
        CallSendMail (transporter env) (mailOptions env name email message)]) /\
  forall v : JsValue,
    run (handleContact env (answering w (DataObject (set_smtp_check v d))) body)
      = run (handleContact env (answering w (DataObject d)) body).
Proof.
  intros Hv Hr Hk Hd He Hf Hm Hx Hle _. split.
  - apply (handleContact_dispatches env w body name email message r k d);
      try assumption.
    rewrite Hx. unfold js_lt. simpl. f_equal. now apply leb_not_ltb.
  - intros v. now rewrite handleContact_smtp_check.
Qed.

Lemma smtp_check_ignored_witness :
  let w := sampleWorld (ScoreNum 0.5%float) in
  let d := goodAnswer (ScoreNum 0.5%float) in
  run (handleContact sampleEnv w annBody)
    = (Responded (dispatchResponse
                    (sendMail_result w (transporter sampleEnv)
                       (annMail sampleEnv))),
       [CallAxiosGet annUrl;
        CallSendMail (transporter sampleEnv) (annMail sampleEnv)]) /\
  forall v : JsValue,
    run (handleContact sampleEnv
           (answering w (DataObject (set_smtp_check v d))) annBody)
      = run (handleContact sampleEnv (answering w (DataObject d)) annBody).
Proof.
  intros w d.
  apply (smtp_check_ignored sampleEnv w annBody
           (lit "Ann") (lit "ann@example.com") (lit "Hi")
           (lit "owner@example.org") (lit "k3y") d 0.5%float).
  - exact sample_valid.
  - apply (sample_configured "owner@example.org"). discriminate.
  - apply (sample_configured "k3y"). discriminate.
  - reflexivity.
  - reflexivity.
  - reflexivity.
  - reflexivity.
  - reflexivity.
  - reflexivity.
  - reflexivity.
Defined.

(** C10.  An answer with no error, format valid and mail exchange found
    whose score is missing is not rejected by the threshold test (the
    comparison is false) and the mail is dispatched. *)
Theorem absent_score_not_rejected env w body name email message r k d :
  valid_submission body name email message ->
  configured (RECEIVER_EMAIL env) r ->
  configured (MAILBOXLAYER_API_KEY env) k ->
  axios_get_result w (verificationUrl k email) = AxiosResolved (DataObject d) ->
  ToBoolean (error d) = false ->
  ToBoolean (format_valid d) = true ->
  ToBoolean (mx_found d) = true ->
  score d = ScoreMissing ->
  js_lt (score d) threshold = Some false /\
  run (handleContact env w body)
    = (Responded (dispatchResponse
                    (sendMail_result w (transporter env)
                       (mailOptions env name email message))),
       [CallAxiosGet (verificationUrl k email);
        CallSendMail (transporter env) (mailOptions env name email message)]).
Proof.
  intros Hv Hr Hk Hd He Hf Hm Hs.
  assert (Hlt : js_lt (score d) threshold = Some false) by now rewrite Hs.
  split; [ exact Hlt | ].
  now apply (handleContact_dispatches env w body name email message r k d).
Qed.

Lemma absent_score_not_rejected_witness :
  js_lt (score (goodAnswer ScoreMissing)) threshold = Some false /\
  run (handleContact sampleEnv (sampleWorld ScoreMissing) annBody)
    = (Responded (dispatchResponse
                    (sendMail_result (sampleWorld ScoreMissing) (transporter sampleEnv)
                       (annMail sampleEnv))),
       [CallAxiosGet annUrl;
        CallSendMail (transporter sampleEnv) (annMail sampleEnv)]).
Proof.
  apply (absent_score_not_rejected sampleEnv (sampleWorld ScoreMissing) annBody
           (lit "Ann") (lit "ann@example.com") (lit "Hi")
           (lit "owner@example.org") (lit "k3y") (goodAnswer ScoreMissing)).
  - exact sample_valid.
  - apply (sample_configured "owner@example.org"). discriminate.
  - apply (sample_configured "k3y"). discriminate.
  - reflexivity.
  - reflexivity.
  - reflexivity.
  - reflexivity.
  - reflexivity.
Defined.

(** The example of the specification: score 0.9. *)
Example ann_example :
  fst (run (handleContact sampleEnv
              (sampleWorld (ScoreNum 0x1.ccccccccccccdp-1%float)) annBody))
    = Responded sent.
Proof. reflexivity. Qed.

(** ** The rate limiter *)

Example contactLimiter_window :
  RateLimit.windowMs contactLimiter = 900000%N /\ RateLimit.max contactLimiter = 5%N.
Proof. split; reflexivity. Qed.

Lemma postContact_store (env : Env) (w : World)
    (store : gmap (list N) RateLimit.Client) (req : Request) :
  snd (postContact env w store req)
    = <[ip req := RateLimit.increment contactLimiter (time req) (ip req) store]>
        store.
Proof.
  unfold postContact, RateLimit.limit.
  destruct (_ <=? _)%N; reflexivity.
Qed.

Lemma serve_cons (env : Env) (w : World)
    (store : gmap (list N) RateLimit.Client) (req : Request) reqs :
  snd (serve env w store (req :: reqs))
    = snd (serve env w (snd (postContact env w store req)) reqs).
Proof.
  simpl. destruct (postContact env w store req) as [out store'].
  simpl. destruct (serve env w store' reqs). reflexivity.
Qed.

(** Inside an open window every request of the caller is counted and the
    end of the window does not move; other callers do not interfere. *)
Lemma serve_window (env : Env) (w : World) (a : list N) (reqs : list Request) :
  forall (store : gmap (list N) RateLimit.Client) c,
    store !! a = Some c ->
    (forall r, In r reqs -> ip r = a -> (time r < RateLimit.resetTime c)%N) ->
    snd (serve env w store reqs) !! a
      = Some {| RateLimit.totalHits :=
                  RateLimit.totalHits c + N.of_nat (requestsFrom a reqs);
                RateLimit.resetTime := RateLimit.resetTime c |}.
Proof.
  induction reqs as [ | req reqs IH ]; intros store c Hc Hin.
  - simpl. rewrite Hc. destruct c as [hits reset]. simpl.
    now rewrite N.add_0_r.
  - rewrite serve_cons, postContact_store.
    assert (Hrest : forall r, In r reqs -> ip r = a ->
                      (time r < RateLimit.resetTime c)%N).
    { intros r Hr. apply Hin. now right. }
    unfold requestsFrom. simpl List.filter.
    destruct (bool_decide (ip req = a)) eqn:Hip.
    + apply bool_decide_eq_true in Hip.
      assert (Hlt : (time req <? RateLimit.resetTime c)%N = true).
      { apply N.ltb_lt. apply Hin; [ now left | assumption ]. }
      rewrite (IH _ {| RateLimit.totalHits := RateLimit.totalHits c + 1;
                       RateLimit.resetTime := RateLimit.resetTime c |}).
      * simpl. f_equal. f_equal. fold (requestsFrom a reqs). lia.
      * unfold RateLimit.increment. rewrite Hip, Hc, Hlt.
        apply lookup_insert_eq.
      * exact Hrest.
    + apply bool_decide_eq_false in Hip.
      rewrite (IH _ c).
      * reflexivity.
      * rewrite lookup_insert_ne by exact Hip. exact Hc.
      * exact Hrest.
Qed.

(** A caller's request that finds no open window opens one and counts
    as its first. *)
Lemma increment_fresh (now : N) (a : list N)
    (store : gmap (list N) RateLimit.Client) :
  match store !! a with
  | Some c => (RateLimit.resetTime c <= now)%N
  | None => True
  end ->
  RateLimit.increment contactLimiter now a store
    = {| RateLimit.totalHits := 1; RateLimit.resetTime := now + 900000 |}.
Proof.
  unfold RateLimit.increment. destruct (store !! a) as [ c | ]; intros H.
  - replace (now <? RateLimit.resetTime c)%N with false
      by (symmetry; apply N.ltb_ge; exact H).
    reflexivity.
  - reflexivity.
Qed.

(** C8.  For every caller address: when a request opens a window and
    four more requests of that caller follow within 15 minutes (among
    any requests of other callers), the caller's sixth request within
    the 15 minutes is answered "Too many requests, please try again
    later." whatever its body, the route not being entered; and once the
    15 minutes have elapsed the caller's next request is handed to the
    route again. *)
Theorem sixth_request_rate_limited (env : Env) (w : World)
    (store : gmap (list N) RateLimit.Client)
    (first : Request) (rest : list Request) (sixth : Request) (a : list N) :
  ip first = a ->
  match store !! a with
  | Some c => (RateLimit.resetTime c <= time first)%N
  | None => True
  end ->
  (forall r, In r rest -> ip r = a -> (time r < time first + 900000)%N) ->
  requestsFrom a rest = 4 ->
  ip sixth = a ->
  (time sixth < time first + 900000)%N ->
  let store5 := snd (serve env w store (first :: rest)) in
  fst (postContact env w store5 sixth) = (Responded tooManyRequests, []) /\
  forall later,
    ip later = a ->
    (time first + 900000 <= time later)%N ->
    fst (postContact env w (snd (postContact env w store5 sixth)) later)
      = run (handleContact env w (body later)).
Proof.
  intros Hfirst Hopen Hrest Hcount Hsixth Htime store5.
  assert (H5 : store5 !! a
               = Some {| RateLimit.totalHits := 5;
                         RateLimit.resetTime := time first + 900000 |}).
  { subst store5. rewrite serve_cons, postContact_store, Hfirst.
    rewrite (increment_fresh (time first) a store Hopen).
    rewrite (serve_window env w a rest _
               {| RateLimit.totalHits := 1;
                  RateLimit.resetTime := time first + 900000 |}).
    - rewrite Hcount. reflexivity.
    - apply lookup_insert_eq.
    - exact Hrest. }
  assert (Hsix : RateLimit.increment contactLimiter (time sixth) a store5
                 = {| RateLimit.totalHits := 6;
                      RateLimit.resetTime := time first + 900000 |}).
  { unfold RateLimit.increment. rewrite H5. simpl RateLimit.resetTime.
    replace (time sixth <? time first + 900000)%N with true
      by (symmetry; apply N.ltb_lt; exact Htime).
    reflexivity. }
  split.
  - unfold postContact, RateLimit.limit. rewrite Hsixth, Hsix. reflexivity.
  - intros later Hlater Helapsed.
    rewrite postContact_store, Hsixth, Hsix.
    unfold postContact, RateLimit.limit. rewrite Hlater.
    rewrite (increment_fresh (time later) a).
    + reflexivity.
    + rewrite lookup_insert_eq. exact Helapsed.
Qed.

Lemma sixth_request_rate_limited_witness :
  let w := sampleWorld ScoreMissing in
  let first := annRequest 0 "203.0.113.7" in
  let sixth := emptyRequest 899999 "203.0.113.7" in
  let store5 := snd (serve sampleEnv w ∅ (first :: sampleRest)) in
  fst (postContact sampleEnv w store5 sixth) = (Responded tooManyRequests, []) /\
  forall later,
    ip later = lit "203.0.113.7" ->
    (time first + 900000 <= time later)%N ->
    fst (postContact sampleEnv w
           (snd (postContact sampleEnv w store5 sixth)) later)
      = run (handleContact sampleEnv w (body later)).
Proof.
  intros w first sixth.
  apply (sixth_request_rate_limited sampleEnv w ∅ first sampleRest sixth
           (lit "203.0.113.7")).
  - reflexivity.
  - rewrite lookup_empty. exact I.
  - intros r Hr _. simpl in Hr.
    destruct Hr as [ <- | [ <- | [ <- | [ <- | [ <- | [] ] ] ] ] ];
      reflexivity.
  - reflexivity.
  - reflexivity.
  - reflexivity.
Defined.

Example sixth_request_answer :
  map fst (fst (serve sampleEnv (sampleWorld ScoreMissing) ∅
                  (annRequest 0 "203.0.113.7" :: sampleRest
                   ++ [emptyRequest 899999 "203.0.113.7";
                       emptyRequest 900000 "203.0.113.7"])))
    = [ Responded sent; Responded sent; Responded sent; Responded sent;
        Responded sent; Responded sent; Responded tooManyRequests;
        Responded (failure 400 "All fields are required.") ].
Proof. vm_compute. reflexivity. Qed.

(* ================================================================== *)
(** * Further properties of the route *)

Lemma truthy_configured (v : option (list N)) :
  ToBoolean (getenv v) = true -> exists s, configured v s.
Proof.
  destruct v as [ [ | c s ] | ]; simpl; try discriminate.
  intros _. exists (c :: s). split; [ reflexivity | discriminate ].
Qed.

Lemma configured_truthy (v : option (list N)) s :
  configured v s -> ToBoolean (getenv v) = true.
Proof.
  intros [-> Hs]. destruct s; [ congruence | reflexivity ].
Qed.

Lemma verifyAndSend_nokey env w name email message :
  ToBoolean (getenv (MAILBOXLAYER_API_KEY env)) = false ->
  verifyAndSend env w name email message
    = respond 500 false
        (lit "Server configuration error: Verification key missing.").
Proof.
  unfold verifyAndSend.
  destruct (MAILBOXLAYER_API_KEY env) as [ [ | c k ] | ]; simpl;
    try discriminate; reflexivity.
Qed.

(** Every run of the route follows one of the paths. *)
Lemma handleContact_path env w body :
  Path env w body (run (handleContact env w body)).
Proof.
  destruct (trimmed (body_name body)) as [ name | ] eqn:Hn.
  2: { unfold handleContact. rewrite (trimField_throws "name" _ Hn).
       now apply PathThrowsName. }
  destruct (trimmed (body_email body)) as [ email | ] eqn:He.
  2: { unfold handleContact.
       rewrite (trimField_trimmed "name" _ _ Hn), bind_ret.
       rewrite (trimField_throws "email" _ He).
       now apply PathThrowsEmail with name. }
  destruct (trimmed (body_message body)) as [ message | ] eqn:Hm.
  2: { unfold handleContact.
       rewrite (trimField_trimmed "name" _ _ Hn), bind_ret.
       rewrite (trimField_trimmed "email" _ _ He), bind_ret.
       rewrite (trimField_throws "message" _ Hm).
       now apply PathThrowsMessage with name email. }
  rewrite (handleContact_trimmed env w body _ _ _ Hn He Hm).
  destruct (isEmpty name) eqn:En.
  { apply PathMissing with name email message; trivial.
    left. now apply isEmpty_true. }
  destruct (isEmpty email) eqn:Ee.
  { apply PathMissing with name email message; trivial.
    right; left. now apply isEmpty_true. }
  destruct (isEmpty message) eqn:Em.
  { apply PathMissing with name email message; trivial.
    right; right. now apply isEmpty_true. }
  assert (Nn : name <> []) by (intros ->; discriminate En).
  assert (Ne : email <> []) by (intros ->; discriminate Ee).
  assert (Nm : message <> []) by (intros ->; discriminate Em).
  simpl orb. cbv iota.
  destruct (test emailRegex email) eqn:Hre; simpl negb; cbv iota.
  2: { now apply PathFormat with name email message. }
  destruct (2000 <? length message) eqn:Hlen.
  { apply Nat.ltb_lt in Hlen. now apply PathLength with name email message. }
  apply Nat.ltb_ge in Hlen.
  assert (Hv : valid_submission body name email message)
    by (unfold valid_submission; auto 10).
  destruct (ToBoolean (getenv (RECEIVER_EMAIL env))) eqn:Hr;
    simpl negb; cbv iota.
  2: { now apply PathNoRecipient with name email message. }
  apply truthy_configured in Hr as [r Hr].
  destruct (ToBoolean (getenv (MAILBOXLAYER_API_KEY env))) eqn:Hk.
  2: { rewrite (verifyAndSend_nokey env w name email message Hk).
       eapply PathNoKey; eassumption. }
  apply truthy_configured in Hk as [k Hk].
  destruct (axios_get_result w (verificationUrl k email))
    as [ [ | d ] | e ] eqn:Hd.
  - rewrite (verifyAndSend_stops env w name email message k _ Hk
               (verifyEmail_null w _ Hd)).
    eapply PathNullBody; eassumption.
  - pose proof (verifyEmail_object w _ d Hd) as Hobj.
    rewrite ToBoolean_js_and in Hobj.
    destruct (ToBoolean (error d)) eqn:Herr.
    { rewrite (verifyAndSend_stops env w name email message k _ Hk Hobj).
      eapply PathServiceError; eassumption. }
    destruct (ToBoolean (format_valid d)) eqn:Hf.
    2: { rewrite (verifyAndSend_stops env w name email message k _ Hk Hobj).
         eapply PathUnverified; eauto. }
    destruct (ToBoolean (mx_found d)) eqn:Hx.
    2: { rewrite (verifyAndSend_stops env w name email message k _ Hk Hobj).
         eapply PathUnverified; eauto. }
    destruct (js_lt (score d) threshold) as [ [ | ] | ] eqn:Hs.
    + rewrite (verifyAndSend_stops env w name email message k _ Hk Hobj).
      eapply PathLowScore; eassumption.
    + rewrite (verifyAndSend_dispatches env w name email message k Hk Hobj).
      eapply PathDispatched; eassumption.
    + rewrite (verifyAndSend_stops env w name email message k _ Hk Hobj).
      eapply PathScoreThrows; eassumption.
  - rewrite (verifyAndSend_stops env w name email message k _ Hk
               (verifyEmail_rejected w _ e Hd)).
    eapply PathUnreachable; eassumption.
Qed.

Ltac unpack_valid :=
  repeat match goal with
         | H : valid_submission _ _ _ _ |- _ =>
             destruct H as (? & ? & ? & ? & ? & ? & ? & ?)
         end.

(** X1.  A valid submission on a server with a recipient but no (or an
    empty) verification key is answered 500 "Server configuration error:
    Verification key missing." and no outbound call is made. *)
Theorem missing_key_configuration_error env w body name email message r :
  valid_submission body name email message ->
  configured (RECEIVER_EMAIL env) r ->
  ToBoolean (getenv (MAILBOXLAYER_API_KEY env)) = false ->
  run (handleContact env w body)
    = (Responded
         (failure 500 "Server configuration error: Verification key missing."),
       []).
Proof.
  intros Hv Hr Hk.
  rewrite (handleContact_valid env w body name email message r Hv Hr).
  now rewrite (verifyAndSend_nokey env w name email message Hk).
Qed.

Lemma missing_key_configuration_error_witness :
  run (handleContact noKeyEnv (sampleWorld ScoreMissing) annBody)
    = (Responded
         (failure 500 "Server configuration error: Verification key missing."),
       []).
Proof.
  apply missing_key_configuration_error
    with (name := lit "Ann") (email := lit "ann@example.com")
         (message := lit "Hi") (r := lit "owner@example.org").
  - exact sample_valid.
  - apply (sample_configured "owner@example.org"). discriminate.
  - reflexivity.
Defined.

(** X2.  When the verification lets the submission through and the mail
    transport fails, the answer is 500 with "Internal server error: "
    followed by the transport's error message; the dispatch was attempted
    exactly once. *)
Theorem dispatch_failure_reported env w body name email message r k d e :
  valid_submission body name email message ->
  configured (RECEIVER_EMAIL env) r ->
  configured (MAILBOXLAYER_API_KEY env) k ->
  axios_get_result w (verificationUrl k email) = AxiosResolved (DataObject d) ->
  ToBoolean (error d) = false ->
  ToBoolean (format_valid d) = true ->
  ToBoolean (mx_found d) = true ->
  js_lt (score d) threshold = Some false ->
  sendMail_result w (transporter env) (mailOptions env name email message)
    = SendRejected e ->
  run (handleContact env w body)
    = (Responded
         {| status := 500;
            json := {| success := false;
                       message := lit "Internal server error: "
                                  ++ error_message e |} |},
       [CallAxiosGet (verificationUrl k email);
        CallSendMail (transporter env) (mailOptions env name email message)]) /\
  dispatchCount (snd (run (handleContact env w body))) = 1.
Proof.
  intros Hv Hr Hk Hd He Hf Hm Hs Hsend.
  rewrite (handleContact_dispatches env w body name email message r k d
             Hv Hr Hk Hd He Hf Hm Hs), Hsend.
  split; reflexivity.
Qed.

Lemma dispatch_failure_reported_witness :
  run (handleContact sampleEnv failingSendWorld annBody)
    = (Responded
         {| status := 500;
            json := {| success := false;
                       message := lit "Internal server error: "
                                  ++ error_message (Error (lit "Invalid login")) |} |},
       [CallAxiosGet annUrl;
        CallSendMail (transporter sampleEnv) (annMail sampleEnv)]) /\
  dispatchCount (snd (run (handleContact sampleEnv failingSendWorld annBody))) = 1.
Proof.
  apply (dispatch_failure_reported sampleEnv failingSendWorld annBody
           (lit "Ann") (lit "ann@example.com") (lit "Hi")
           (lit "owner@example.org") (lit "k3y")
           (goodAnswer (ScoreNum 0.5%float)) (Error (lit "Invalid login"))).
  - exact sample_valid.
  - apply (sample_configured "owner@example.org"). discriminate.
  - apply (sample_configured "k3y"). discriminate.
  - reflexivity.
  - reflexivity.
  - reflexivity.
  - reflexivity.
  - reflexivity.
  - reflexivity.
Defined.

(** X3.  When the verification service answers the JSON value [null],
    reading [data.error] throws inside the inner [try]: the submission is
    answered 500 "Email verification failed. ..." and nothing is
    dispatched. *)
Theorem null_answer_blocks_dispatch env w body name email message r k :
  valid_submission body name email message ->
  configured (RECEIVER_EMAIL env) r ->
  configured (MAILBOXLAYER_API_KEY env) k ->
  axios_get_result w (verificationUrl k email) = AxiosResolved DataNull ->
  run (handleContact env w body)
    = (Responded verificationFailed, [CallAxiosGet (verificationUrl k email)]).
Proof.
  intros Hv Hr Hk Hd.
  rewrite (handleContact_valid env w body name email message r Hv Hr).
  apply (verifyAndSend_stops env w name email message k _ Hk).
  now apply verifyEmail_null.
Qed.

Lemma null_answer_blocks_dispatch_witness :
  run (handleContact sampleEnv nullBodyWorld annBody)
    = (Responded verificationFailed, [CallAxiosGet annUrl]).
Proof.
  apply null_answer_blocks_dispatch
    with (name := lit "Ann") (email := lit "ann@example.com")
         (message := lit "Hi") (r := lit "owner@example.org") (k := lit "k3y").
  - exact sample_valid.
  - apply (sample_configured "owner@example.org"). discriminate.
  - apply (sample_configured "k3y"). discriminate.
  - reflexivity.
Defined.

(** X4.  The route function throws exactly when [req.body] is
    undefined or one of the three fields is a truthy value that is not a
    string; when it throws, no outbound call has been made. *)
Theorem throws_iff_non_text_field env w reqBody :
  ((exists e, run (contactRoute env w reqBody) = (Rejected e, [])) <->
   (reqBody = None \/
    exists body,
      reqBody = Some body /\
      (trimmed (body_name body) = None \/
       trimmed (body_email body) = None \/
       trimmed (body_message body) = None))) /\
  ((exists e, fst (run (contactRoute env w reqBody)) = Rejected e) ->
   snd (run (contactRoute env w reqBody)) = []).
Proof.
  destruct reqBody as [ body | ]; simpl.
  2: { split; [ split; eauto | reflexivity ]. }
  pose proof (handleContact_path env w body) as P.
  destruct P; unpack_valid; simpl; (split; [ split | ]);
    try (intros [e0 He0]; discriminate He0);
    try (intros [ Hx | (b & [= <-] & [ Hx | [ Hx | Hx ] ]) ]; congruence);
    try (intros _; reflexivity); eauto 8.
Qed.

(** X5.  Within one request the verification service is called at most
    once and the mail transport at most once, and never the transport
    before the service: the calls are none, one verification, or one
    verification followed by one dispatch. *)
Theorem calls_at_most_once_in_order env w body :
  snd (run (handleContact env w body)) = [] \/
  (exists url, snd (run (handleContact env w body)) = [CallAxiosGet url]) \/
  (exists url t o,
     snd (run (handleContact env w body))
       = [CallAxiosGet url; CallSendMail t o]).
Proof.
  pose proof (handleContact_path env w body) as P.
  destruct P; simpl; eauto 6.
Qed.

(** X6.  Whatever is answered has status 200, 400 or 500, and its
    [success] flag is true exactly when the status is 200. *)
Theorem envelope_matches_status env w body r :
  fst (run (handleContact env w body)) = Responded r ->
  (status r = 200 \/ status r = 400 \/ status r = 500) /\
  (success (json r) = true <-> status r = 200).
Proof.
  pose proof (handleContact_path env w body) as P.
  destruct P; simpl; intros [= <-]; simpl;
    try (split; [ auto | split; discriminate ]).
  destruct (sendMail_result _ _ _); simpl;
    (split; [ auto | split; (reflexivity || discriminate) ]).
Qed.

Lemma envelope_matches_status_witness :
  (status (failure 400 "Invalid email format.") = 200 \/
   status (failure 400 "Invalid email format.") = 400 \/
   status (failure 400 "Invalid email format.") = 500) /\
  (success (json (failure 400 "Invalid email format.")) = true <->
   status (failure 400 "Invalid email format.") = 200).
Proof.
  apply (envelope_matches_status sampleEnv (sampleWorld ScoreMissing)
           {| body_name := JStr (lit "Ann");
              body_email := JStr (lit "ann@example");
              body_message := JStr (lit "Hi") |}).
  reflexivity.
Defined.

(** X7.  A success answer is only ever given after the submission
    passed every check, the verification service answered without error
    with format valid, mail exchange found and a score not below 0.3,
    and the one dispatch succeeded. *)
Theorem success_only_after_verified_dispatch env w body r :
  fst (run (handleContact env w body)) = Responded r ->
  success (json r) = true ->
  exists name email message rcpt k d messageId,
    valid_submission body name email message /\
    configured (RECEIVER_EMAIL env) rcpt /\
    configured (MAILBOXLAYER_API_KEY env) k /\
    axios_get_result w (verificationUrl k email)
      = AxiosResolved (DataObject d) /\
    ToBoolean (error d) = false /\
    ToBoolean (format_valid d) = true /\
    ToBoolean (mx_found d) = true /\
    js_lt (score d) threshold = Some false /\
    sendMail_result w (transporter env) (mailOptions env name email message)
      = SendResolved messageId /\
    run (handleContact env w body)
      = (Responded sent,
         [CallAxiosGet (verificationUrl k email);
          CallSendMail (transporter env) (mailOptions env name email message)]).
Proof.
  pose proof (handleContact_path env w body) as P.
  destruct P as [ | | | | | | | | | | | | | | name email message rcpt k d ];
    simpl; intros [= <-]; simpl; try discriminate.
  destruct (sendMail_result w (transporter env)
              (mailOptions env name email message)) as [ messageId | e ] eqn:Hs;
    simpl; [ intros _ | discriminate ].
  exists name, email, message, rcpt, k, d, messageId. auto 12.
Qed.

Lemma success_only_after_verified_dispatch_witness :
  exists name email message rcpt k d messageId,
    valid_submission annBody name email message /\
    configured (RECEIVER_EMAIL sampleEnv) rcpt /\
    configured (MAILBOXLAYER_API_KEY sampleEnv) k /\
    axios_get_result (sampleWorld ScoreMissing) (verificationUrl k email)
      = AxiosResolved (DataObject d) /\
    ToBoolean (error d) = false /\
    ToBoolean (format_valid d) = true /\
    ToBoolean (mx_found d) = true /\
    js_lt (score d) threshold = Some false /\
    sendMail_result (sampleWorld ScoreMissing) (transporter sampleEnv)
        (mailOptions sampleEnv name email message)
      = SendResolved messageId /\
    run (handleContact sampleEnv (sampleWorld ScoreMissing) annBody)
      = (Responded sent,
         [CallAxiosGet (verificationUrl k email);
          CallSendMail (transporter sampleEnv)
            (mailOptions sampleEnv name email message)]).
Proof.
  apply (success_only_after_verified_dispatch sampleEnv (sampleWorld ScoreMissing)
           annBody sent).
  - reflexivity.
  - reflexivity.
Defined.

(** X8.  The answer 400 "Email validation failed." of line 233 is never
    given: [shouldSend] is true whenever that line is reached. *)
Theorem validation_failed_branch_is_dead env w body :
  fst (run (handleContact env w body))
    <> Responded (failure 400 "Email validation failed.").
Proof.
  pose proof (handleContact_path env w body) as P.
  destruct P; simpl; try discriminate.
  destruct (sendMail_result _ _ _); simpl; discriminate.
Qed.

(** X9.  An outbound call is made only for a submission that passed the
    presence, format and length checks on a server whose recipient and
    verification key are configured; the first call is the verification
    request for the trimmed address with the configured key. *)
Theorem no_call_before_validation env w body :
  snd (run (handleContact env w body)) <> [] ->
  exists name email message r k,
    valid_submission body name email message /\
    configured (RECEIVER_EMAIL env) r /\
    configured (MAILBOXLAYER_API_KEY env) k /\
    hd_error (snd (run (handleContact env w body)))
      = Some (CallAxiosGet (verificationUrl k email)).
Proof.
  pose proof (handleContact_path env w body) as P.
  destruct P; simpl; intros Hne; try congruence; eauto 10.
Qed.

Lemma no_call_before_validation_witness :
  exists name email message r k,
    valid_submission annBody name email message /\
    configured (RECEIVER_EMAIL sampleEnv) r /\
    configured (MAILBOXLAYER_API_KEY sampleEnv) k /\
    hd_error (snd (run (handleContact sampleEnv unreachableWorld annBody)))
      = Some (CallAxiosGet (verificationUrl k email)).
Proof.
  apply (no_call_before_validation sampleEnv unreachableWorld annBody).
  discriminate.
Defined.

(** X10.  Every mail the route dispatches goes to the configured
    recipient through the transport of lines 237-248, and its reply-to
    is the trimmed submitted address, which has the shape
    [local@domain.tld]. *)
Theorem dispatch_only_to_recipient env w body t o :
  In (CallSendMail t o) (snd (run (handleContact env w body))) ->
  exists r,
    configured (RECEIVER_EMAIL env) r /\
    to o = Some r /\
    t = transporter env /\
    trimmed (body_email body) = Some (replyTo o) /\
    local_at_domain_tld (replyTo o).
Proof.
  pose proof (handleContact_path env w body) as P.
  destruct P as [ | | | | | | | | | | | | | | name email message r k d Hv Hr ];
    simpl; intros Hin;
    repeat match goal with
           | H : _ \/ _ |- _ => destruct H
           | H : False |- _ => destruct H
           end;
    try discriminate.
  match goal with H : CallSendMail _ _ = CallSendMail _ _ |- _ =>
    injection H as <- <- end.
  exists r. destruct Hv as (_ & He & _ & _ & _ & _ & Hre & _).
  destruct Hr as [Hr Nr]. simpl.
  repeat split; trivial. now apply emailRegex_shape.
Qed.

Lemma dispatch_only_to_recipient_witness :
  exists r,
    configured (RECEIVER_EMAIL sampleEnv) r /\
    to (annMail sampleEnv) = Some r /\
    transporter sampleEnv = transporter sampleEnv /\
    trimmed (body_email annBody) = Some (replyTo (annMail sampleEnv)) /\
    local_at_domain_tld (replyTo (annMail sampleEnv)).
Proof.
  apply (dispatch_only_to_recipient sampleEnv (sampleWorld ScoreMissing) annBody
           (transporter sampleEnv) (annMail sampleEnv)).
  right. left. reflexivity.
Defined.

(** ** Sanitisation, continued *)

Lemma trimStart_app_space p s :
  forallb isSpace p = true -> trimStart (p ++ s) = trimStart s.
Proof.
  induction p as [ | c p IH ]; simpl; [ reflexivity | ].
  destruct (isSpace c); simpl; [ exact IH | discriminate ].
Qed.

Lemma trimStart_app_kept s q c s' :
  trimStart s = c :: s' -> trimStart (s ++ q) = trimStart s ++ q.
Proof.
  induction s as [ | c0 s IH ]; simpl; [ discriminate | ].
  destruct (isSpace c0); [ exact IH | reflexivity ].
Qed.

Lemma forallb_rev_intro (p : N -> bool) (l : list N) :
  forallb p l = true -> forallb p (rev l) = true.
Proof.
  rewrite !forallb_forall. intros H c Hc. apply H. now apply in_rev.
Qed.

Lemma trimEnd_app_space s q :
  forallb isSpace q = true -> trimEnd (s ++ q) = trimEnd s.
Proof.
  intros Hq. unfold trimEnd. rewrite rev_app_distr.
  now rewrite trimStart_app_space by now apply forallb_rev_intro.
Qed.

(** White space around a string does not change what it trims to. *)
Lemma trim_pad p s q :
  forallb isSpace p = true -> forallb isSpace q = true ->
  trim (p ++ s ++ q) = trim s.
Proof.
  intros Hp Hq. unfold trim. rewrite (trimStart_app_space p _ Hp).
  destruct (trimStart s) as [ | c s' ] eqn:Hs.
  - apply trimStart_nil in Hs.
    assert (Hall : trimStart (s ++ q) = []).
    { apply trimStart_nil. rewrite forallb_app. now rewrite Hs, Hq. }
    now rewrite Hall.
  - rewrite (trimStart_app_kept s q c s' Hs), Hs.
    now apply trimEnd_app_space.
Qed.

(** X11.  White space and line terminators around the three fields are
    ignored: the route does the same for a submission and for that
    submission with its fields padded. *)
Theorem surrounding_whitespace_ignored env w name email message
    p1 q1 p2 q2 p3 q3 :
  forallb isSpace (p1 ++ q1 ++ p2 ++ q2 ++ p3 ++ q3) = true ->
  handleContact env w
    {| body_name := JStr (p1 ++ name ++ q1);
       body_email := JStr (p2 ++ email ++ q2);
       body_message := JStr (p3 ++ message ++ q3) |}
  = handleContact env w
      {| body_name := JStr name;
         body_email := JStr email;
         body_message := JStr message |}.
Proof.
  rewrite !forallb_app, !andb_true_iff.
  intros (H1 & H2 & H3 & H4 & H5 & H6).
  rewrite (handleContact_trimmed env w _ (trim name) (trim email) (trim message)).
  - now rewrite (handleContact_trimmed env w _
                   (trim name) (trim email) (trim message)).
  - simpl. now rewrite trim_pad.
  - simpl. now rewrite trim_pad.
  - simpl. now rewrite trim_pad.
Qed.

Lemma surrounding_whitespace_ignored_witness :
  handleContact sampleEnv (sampleWorld ScoreMissing)
    {| body_name := JStr (lit " " ++ lit "Ann" ++ [9%N]);
       body_email := JStr ([10%N; 13%N] ++ lit "ann@example.com" ++ lit "  ");
       body_message := JStr ([160%N] ++ lit "Hi" ++ []) |}
  = handleContact sampleEnv (sampleWorld ScoreMissing)
      {| body_name := JStr (lit "Ann");
         body_email := JStr (lit "ann@example.com");
         body_message := JStr (lit "Hi") |}.
Proof.
  apply (surrounding_whitespace_ignored sampleEnv (sampleWorld ScoreMissing)
           (lit "Ann") (lit "ann@example.com") (lit "Hi")
           (lit " ") [9%N] [10%N; 13%N] (lit "  ") [160%N] []).
  reflexivity.
Defined.

(** ** The e-mail pattern, continued *)

Lemma notSpaceAt_run (l : list N) :
  forallb notSpaceAt l = true ->
  count_occ N.eq_dec l 64%N = 0 /\
  forallb (fun c => negb (isSpace c)) l = true.
Proof.
  induction l as [ | c l IH ]; simpl; [ auto | ].
  intros H. apply andb_true_iff in H as [Hc Hl].
  destruct (IH Hl) as [IH1 IH2]. unfold notSpaceAt in Hc.
  apply negb_true_iff, orb_false_iff in Hc as [Hs Hat].
  apply N.eqb_neq in Hat. rewrite Hs, IH2. simpl.
  destruct (N.eq_dec c 64%N) as [ -> | _ ]; [ congruence | auto ].
Qed.

(** X12.  An address accepted by the pattern of line 167 contains
    exactly one at sign, contains no white space or line terminator, and
    has at least five code units. *)
Theorem accepted_email_facts (s : list N) :
  test emailRegex s = true ->
  count_occ N.eq_dec s 64%N = 1 /\
  forallb (fun c => negb (isSpace c)) s = true /\
  5 <= length s.
Proof.
  intros H. apply emailRegex_shape in H
    as (l & d & t & -> & Nl & Nd & Nt & Hl & Hd & Ht).
  apply notSpaceAt_run in Hl as [Cl Sl].
  apply notSpaceAt_run in Hd as [Cd Sd].
  apply notSpaceAt_run in Ht as [Ct St].
  repeat split.
  - rewrite count_occ_app. simpl. rewrite count_occ_app. simpl.
    destruct (N.eq_dec 64%N 64%N) as [ _ | Hne ]; [ | congruence ].
    destruct (N.eq_dec 46%N 64%N) as [ Heq | _ ]; [ discriminate Heq | ].
    lia.
  - rewrite forallb_app. simpl. rewrite forallb_app. simpl.
    now rewrite Sl, Sd, St.
  - rewrite length_app. simpl. rewrite length_app. simpl.
    destruct l; [ congruence | ]. destruct d; [ congruence | ].
    destruct t; [ congruence | ]. simpl. lia.
Qed.

Lemma accepted_email_facts_witness :
  count_occ N.eq_dec (lit "a@b.c") 64%N = 1 /\
  forallb (fun c => negb (isSpace c)) (lit "a@b.c") = true /\
  5 <= length (lit "a@b.c").
Proof.
  apply (accepted_email_facts (lit "a@b.c")). reflexivity.
Defined.

(* ================================================================== *)
(** * Cross-origin requests *)

Lemma indexOfFrom_lower l x : forall i,
  indexOfFrom l x i = (-1)%Z \/ (i <= indexOfFrom l x i)%Z.
Proof.
  induction l as [ | y l IH ]; intros i; simpl; [ now left | ].
  case_bool_decide; [ right; lia | ].
  destruct (IH (i + 1)%Z) as [ H1 | H1 ]; [ now left | right; lia ].
Qed.

Lemma indexOfFrom_not_found l x : forall i,
  (0 <= i)%Z -> (indexOfFrom l x i = (-1)%Z <-> ~ In x l).
Proof.
  induction l as [ | y l IH ]; intros i Hi; simpl.
  - tauto.
  - case_bool_decide as Hy.
    + split; [ lia | intros Hn; exfalso; apply Hn; now left ].
    + rewrite (IH (i + 1)%Z) by lia. intuition congruence.
Qed.

(** X13.  The origin check lets a request through exactly when it
    carries no (or an empty) [Origin] header or its origin is, code unit
    for code unit, one of the four of [allowedOrigins]; every other
    origin is refused with the CORS error. *)
Theorem cors_origin_decision (origin : option (list N)) :
  (corsOrigin origin = (None, true) <->
   origin = None \/ origin = Some [] \/
   exists o, origin = Some o /\ In o allowedOrigins) /\
  (corsOrigin origin <> (None, true) ->
   corsOrigin origin = (Some corsRefused, false)).
Proof.
  unfold corsOrigin. destruct origin as [ [ | c o ] | ]; simpl negb; cbv iota.
  - split; [ | congruence ]. split; auto.
  - unfold indexOf.
    pose proof (indexOfFrom_not_found allowedOrigins (c :: o) 0%Z
                  (Z.le_refl 0)) as Hnf.
    destruct (indexOfFrom allowedOrigins (c :: o) 0 =? -1)%Z eqn:Hix.
    + apply Z.eqb_eq in Hix. apply Hnf in Hix.
      split; [ | reflexivity ]. split; [ discriminate | ].
      intros [ H | [ H | (o' & [= <-] & Hin) ] ];
        [ discriminate | discriminate | contradiction ].
    + apply Z.eqb_neq in Hix. split; [ | congruence ].
      split; [ intros _ | reflexivity ]. right; right.
      exists (c :: o). split; [ reflexivity | ].
      destruct (in_dec (fun a b : list N => decide (a = b)) (c :: o) allowedOrigins)
        as [ Hin | Hout ]; [ exact Hin | ].
      apply Hnf in Hout. contradiction.
  - split; [ | congruence ]. split; auto.
Qed.

(* ================================================================== *)
(** * The earlier route *)

Lemma legacy_bind_ret {A B} (a : A) (k : A -> Legacy.Handler B) :
  Legacy.bind (Legacy.ret a) k = k a.
Proof. unfold Legacy.bind, Legacy.ret. now destruct (k a). Qed.

Lemma legacy_ToString f v s :
  Legacy.toStringValue f v = Some s -> Legacy.ToString f v = Legacy.ret s.
Proof. unfold Legacy.ToString. now intros ->. Qed.

Lemma legacy_js_and3 a b c :
  ToBoolean (js_and (js_and a b) c) = ToBoolean a && ToBoolean b && ToBoolean c.
Proof. now rewrite !ToBoolean_js_and. Qed.

(** The verification step lets the request continue when the call fails
    or the answer is [null]. *)
Lemma legacy_verifyEmail_swallows f w k email e :
  Legacy.toStringValue f email = Some e ->
  (exists err, Legacy.axios_get_result w (Legacy.verificationUrl k e)
               = AxiosRejected err) \/
  Legacy.axios_get_result w (Legacy.verificationUrl k e)
    = AxiosResolved DataNull ->
  Legacy.verifyEmail f w k email
    = (Normal tt, [Legacy.CallAxiosGet (Legacy.verificationUrl k e)]).
Proof.
  intros He Hd. unfold Legacy.verifyEmail.
  rewrite (legacy_ToString f email e He), legacy_bind_ret.
  unfold Legacy.axios_get.
  destruct Hd as [ [err Hd] | Hd ]; rewrite Hd; reflexivity.
Qed.

Lemma legacy_verifyEmail_object f w k email e d :
  Legacy.toStringValue f email = Some e ->
  Legacy.axios_get_result w (Legacy.verificationUrl k e)
    = AxiosResolved (DataObject d) ->
  Legacy.verifyEmail f w k email
    = (if ToBoolean (format_valid d) && ToBoolean (mx_found d)
          && ToBoolean (smtp_check d)
       then Normal tt
       else Return (failure 400 "Invalid or unverified email address."),
       [Legacy.CallAxiosGet (Legacy.verificationUrl k e)]).
Proof.
  intros He Hd. unfold Legacy.verifyEmail.
  rewrite (legacy_ToString f email e He), !legacy_bind_ret.
  unfold Legacy.axios_get. rewrite Hd.
  cbv beta iota delta [Legacy.bind Legacy.destructure Legacy.ret].
  rewrite legacy_js_and3.
  destruct (ToBoolean (format_valid d) && ToBoolean (mx_found d)
            && ToBoolean (smtp_check d)); reflexivity.
Qed.

(** The route for three truthy fields that convert to strings, in terms
    of what its verification step did. *)
Lemma legacy_handleContact_truthy f env w body name email message :
  ToBoolean (body_name body) = true ->
  ToBoolean (body_email body) = true ->
  ToBoolean (body_message body) = true ->
  Legacy.toStringValue f (body_name body) = Some name ->
  Legacy.toStringValue f (body_email body) = Some email ->
  Legacy.toStringValue f (body_message body) = Some message ->
  Legacy.run (Legacy.handleContact f env w body)
    = match
        match MAILBOXLAYER_API_KEY env with
        | Some (c :: k) => Legacy.verifyEmail f w (c :: k) (body_email body)
        | _ => Legacy.ret tt
        end
      with
      | (Normal _, t) =>
          (Responded
             (Legacy.dispatchResponse
                (Legacy.sendMail_result w (Legacy.transporter env)
                   (Legacy.mailOptions env (body_email body)
                      name email message))),
           t ++ [Legacy.CallSendMail (Legacy.transporter env)
                   (Legacy.mailOptions env (body_email body)
                      name email message)])
      | (Return r, t) => (Responded r, t)
      | (Throw _, t) => (Responded (failure 500 "Internal server error."), t)
      end.
Proof.
  intros Tn Te Tm Hn He Hm. unfold Legacy.handleContact, Legacy.send.
  rewrite Tn, Te, Tm. simpl orb. cbv iota.
  rewrite (legacy_ToString f _ name Hn), (legacy_ToString f _ email He),
    (legacy_ToString f _ message Hm).
  destruct (match MAILBOXLAYER_API_KEY env with
            | Some (c :: k) => Legacy.verifyEmail f w (c :: k) (body_email body)
            | _ => Legacy.ret tt
            end) as [ [ [] | r | e ] t ].
  - cbv beta iota delta [Legacy.bind Legacy.ret Legacy.sendMail].
    destruct (Legacy.sendMail_result w _ _); simpl;
      rewrite ?app_nil_r; reflexivity.
  - reflexivity.
  - simpl. now rewrite app_nil_r.
Qed.

(** X14.  The earlier route fails open: with a verification key
    configured, when the verification call fails or answers [null], the
    mail is dispatched all the same and the answer is that of the
    dispatch. *)
Theorem legacy_verification_failure_is_ignored
    f env w body name email message k :
  ToBoolean (body_name body) = true ->
  ToBoolean (body_email body) = true ->
  ToBoolean (body_message body) = true ->
  Legacy.toStringValue f (body_name body) = Some name ->
  Legacy.toStringValue f (body_email body) = Some email ->
  Legacy.toStringValue f (body_message body) = Some message ->
  configured (MAILBOXLAYER_API_KEY env) k ->
  (exists err, Legacy.axios_get_result w (Legacy.verificationUrl k email)
               = AxiosRejected err) \/
  Legacy.axios_get_result w (Legacy.verificationUrl k email)
    = AxiosResolved DataNull ->
  Legacy.run (Legacy.handleContact f env w body)
    = (Responded
         (Legacy.dispatchResponse
            (Legacy.sendMail_result w (Legacy.transporter env)
               (Legacy.mailOptions env (body_email body) name email message))),
       [Legacy.CallAxiosGet (Legacy.verificationUrl k email);
        Legacy.CallSendMail (Legacy.transporter env)
          (Legacy.mailOptions env (body_email body) name email message)]).
Proof.
  intros Tn Te Tm Hn He Hm [Hk Nk] Hd.
  rewrite (legacy_handleContact_truthy f env w body name email message
             Tn Te Tm Hn He Hm), Hk.
  destruct k as [ | c k ]; [ congruence | ].
  now rewrite (legacy_verifyEmail_swallows f w (c :: k) _ email He Hd).
Qed.

Lemma legacy_verification_failure_is_ignored_witness :
  let body := textBody (lit "Ann") (lit "ann@example.com") (lit "Hi") in
  Legacy.run (Legacy.handleContact noConversion sampleEnv legacyUnreachable body)
    = (Responded
         (Legacy.dispatchResponse
            (Legacy.sendMail_result legacyUnreachable
               (Legacy.transporter sampleEnv)
               (Legacy.mailOptions sampleEnv (body_email body)
                  (lit "Ann") (lit "ann@example.com") (lit "Hi")))),
       [Legacy.CallAxiosGet
          (Legacy.verificationUrl (lit "k3y") (lit "ann@example.com"));
        Legacy.CallSendMail (Legacy.transporter sampleEnv)
          (Legacy.mailOptions sampleEnv (body_email body)
             (lit "Ann") (lit "ann@example.com") (lit "Hi"))]).
Proof.
  intros body.
  apply (legacy_verification_failure_is_ignored noConversion sampleEnv
           legacyUnreachable body
           (lit "Ann") (lit "ann@example.com") (lit "Hi") (lit "k3y")).
  - reflexivity.
  - reflexivity.
  - reflexivity.
  - reflexivity.
  - reflexivity.
  - reflexivity.
  - apply (sample_configured "k3y"). discriminate.
  - left. exists (Error (lit "connect ETIMEDOUT")). reflexivity.
Defined.

(** X15.  Without a verification key the earlier route makes no
    verification call at all: three truthy fields (white space only
    counts as truthy, nothing is trimmed) lead straight to the dispatch,
    whose failure is answered with the bare "Internal server error.". *)
Theorem legacy_no_key_no_verification f env w body name email message :
  ToBoolean (body_name body) = true ->
  ToBoolean (body_email body) = true ->
  ToBoolean (body_message body) = true ->
  Legacy.toStringValue f (body_name body) = Some name ->
  Legacy.toStringValue f (body_email body) = Some email ->
  Legacy.toStringValue f (body_message body) = Some message ->
  ToBoolean (getenv (MAILBOXLAYER_API_KEY env)) = false ->
  let o := Legacy.mailOptions env (body_email body) name email message in
  Legacy.run (Legacy.handleContact f env w body)
    = (Responded
         (match Legacy.sendMail_result w (Legacy.transporter env) o with
          | SendResolved _ => sent
          | SendRejected _ => failure 500 "Internal server error."
          end),
       [Legacy.CallSendMail (Legacy.transporter env) o]).
Proof.
  intros Tn Te Tm Hn He Hm Hk o. subst o.
  rewrite (legacy_handleContact_truthy f env w body name email message
             Tn Te Tm Hn He Hm).
  destruct (MAILBOXLAYER_API_KEY env) as [ [ | c k ] | ];
    simpl in Hk; try discriminate Hk; reflexivity.
Qed.

Lemma legacy_no_key_no_verification_witness :
  let body := textBody (lit "   ") (lit "not an address") (lit "Hi") in
  let o := Legacy.mailOptions noKeyEnv (body_email body)
             (lit "   ") (lit "not an address") (lit "Hi") in
  Legacy.run (Legacy.handleContact noConversion noKeyEnv legacyUnreachable body)
    = (Responded
         (match Legacy.sendMail_result legacyUnreachable
                  (Legacy.transporter noKeyEnv) o with
          | SendResolved _ => sent
          | SendRejected _ => failure 500 "Internal server error."
          end),
       [Legacy.CallSendMail (Legacy.transporter noKeyEnv) o]).
Proof.
  intros body.
  apply (legacy_no_key_no_verification noConversion noKeyEnv
           legacyUnreachable body
           (lit "   ") (lit "not an address") (lit "Hi")); reflexivity.
Defined.

(** X16.  With a key configured and an answer whose properties can be
    read, the earlier route decides on [format_valid], [mx_found] and
    [smtp_check] alone, whatever [error] and [score] are: one falsy flag
    gives 400 "Invalid or unverified email address." without dispatch,
    three truthy flags give the dispatch. *)
Theorem legacy_three_flags_decide f env w body name email message k d :
  ToBoolean (body_name body) = true ->
  ToBoolean (body_email body) = true ->
  ToBoolean (body_message body) = true ->
  Legacy.toStringValue f (body_name body) = Some name ->
  Legacy.toStringValue f (body_email body) = Some email ->
  Legacy.toStringValue f (body_message body) = Some message ->
  configured (MAILBOXLAYER_API_KEY env) k ->
  Legacy.axios_get_result w (Legacy.verificationUrl k email)
    = AxiosResolved (DataObject d) ->
  let url := Legacy.verificationUrl k email in
  let o := Legacy.mailOptions env (body_email body) name email message in
  (ToBoolean (format_valid d) = false \/ ToBoolean (mx_found d) = false \/
   ToBoolean (smtp_check d) = false ->
   Legacy.run (Legacy.handleContact f env w body)
     = (Responded (failure 400 "Invalid or unverified email address."),
        [Legacy.CallAxiosGet url])) /\
  (ToBoolean (format_valid d) = true -> ToBoolean (mx_found d) = true ->
   ToBoolean (smtp_check d) = true ->
   Legacy.run (Legacy.handleContact f env w body)
     = (Responded
          (Legacy.dispatchResponse
             (Legacy.sendMail_result w (Legacy.transporter env) o)),
        [Legacy.CallAxiosGet url;
         Legacy.CallSendMail (Legacy.transporter env) o])).
Proof.
  intros Tn Te Tm Hn He Hm [Hk Nk] Hd url o. subst url o.
  rewrite (legacy_handleContact_truthy f env w body name email message
             Tn Te Tm Hn He Hm), Hk.
  destruct k as [ | c k ]; [ congruence | ].
  rewrite (legacy_verifyEmail_object f w (c :: k) _ email d He Hd).
  split.
  - intros Hflag.
    assert (Hand : ToBoolean (format_valid d) && ToBoolean (mx_found d)
                   && ToBoolean (smtp_check d) = false).
    { destruct Hflag as [ -> | [ -> | -> ] ];
        rewrite ?andb_false_r; reflexivity. }
    now rewrite Hand.
  - intros -> -> ->. reflexivity.
Qed.

Lemma legacy_three_flags_decide_witness :
  let body := textBody (lit "Ann") (lit "ann@example.com") (lit "Hi") in
  let d := goodAnswer (ScoreNum 0.5%float) in
  let w := legacyAnswering d in
  let url := Legacy.verificationUrl (lit "k3y") (lit "ann@example.com") in
  let o := Legacy.mailOptions sampleEnv (body_email body)
             (lit "Ann") (lit "ann@example.com") (lit "Hi") in
  (ToBoolean (format_valid d) = false \/ ToBoolean (mx_found d) = false \/
   ToBoolean (smtp_check d) = false ->
   Legacy.run (Legacy.handleContact noConversion sampleEnv w body)
     = (Responded (failure 400 "Invalid or unverified email address."),
        [Legacy.CallAxiosGet url])) /\
  (ToBoolean (format_valid d) = true -> ToBoolean (mx_found d) = true ->
   ToBoolean (smtp_check d) = true ->
   Legacy.run (Legacy.handleContact noConversion sampleEnv w body)
     = (Responded
          (Legacy.dispatchResponse
             (Legacy.sendMail_result w (Legacy.transporter sampleEnv) o)),
        [Legacy.CallAxiosGet url;
         Legacy.CallSendMail (Legacy.transporter sampleEnv) o])).
Proof.
  intros body d w.
  apply (legacy_three_flags_decide noConversion sampleEnv w body
           (lit "Ann") (lit "ann@example.com") (lit "Hi") (lit "k3y") d).
  - reflexivity.
  - reflexivity.
  - reflexivity.
  - reflexivity.
  - reflexivity.
  - reflexivity.
  - apply (sample_configured "k3y"). discriminate.
  - reflexivity.
Defined.

Example legacy_blocks_failed_mailbox_check :
  Legacy.run
    (Legacy.handleContact noConversion sampleEnv
       (legacyAnswering (goodAnswer (ScoreNum 0.5%float)))
       (textBody (lit "Ann") (lit "ann@example.com") (lit "Hi")))
  = (Responded (failure 400 "Invalid or unverified email address."),
     [Legacy.CallAxiosGet
        (Legacy.verificationUrl (lit "k3y") (lit "ann@example.com"))]).
Proof. reflexivity. Qed.

Lemma legacy_receiver_configured env r :
  configured (RECEIVER_EMAIL env) r -> Legacy.receiver env = r.
Proof.
  intros [Hr Nr]. unfold Legacy.receiver. rewrite Hr.
  destruct r; [ congruence | reflexivity ].
Qed.

Lemma legacy_receiver_fallback env :
  ToBoolean (getenv (RECEIVER_EMAIL env)) = false ->
  Legacy.receiver env = lit "rrwr@gmail.com".
Proof.
  unfold Legacy.receiver.
  destruct (RECEIVER_EMAIL env) as [ [ | c s ] | ]; simpl;
    try discriminate; reflexivity.
Qed.

(** The verification step never dispatches. *)
Lemma legacy_verifyEmail_calls f w k email t o :
  ~ In (Legacy.CallSendMail t o) (snd (Legacy.verifyEmail f w k email)).
Proof.
  unfold Legacy.verifyEmail, Legacy.ToString.
  destruct (Legacy.toStringValue f email) as [ e | ];
    [ | simpl; tauto ].
  rewrite legacy_bind_ret. unfold Legacy.axios_get.
  destruct (Legacy.axios_get_result w _) as [ [ | d ] | err ];
    cbv beta iota delta [Legacy.bind Legacy.destructure Legacy.ret
                           Legacy.throw Legacy.tryCatch];
    try (simpl; intros [ H | [] ]; discriminate H).
  destruct (negb _); simpl; intros [ H | [] ]; discriminate H.
Qed.

(** What the dispatch stage sends is built from the configuration and
    the submission. *)
Lemma legacy_send_calls f env w body t o :
  In (Legacy.CallSendMail t o) (snd (Legacy.send f env w body)) ->
  exists name' email' message',
    t = Legacy.transporter env /\
    o = Legacy.mailOptions env (body_email body) name' email' message'.
Proof.
  unfold Legacy.send, Legacy.ToString.
  destruct (Legacy.toStringValue f (body_name body)) as [ n | ];
    [ rewrite legacy_bind_ret | intros [] ].
  destruct (Legacy.toStringValue f (body_email body)) as [ e | ];
    [ rewrite legacy_bind_ret | intros [] ].
  destruct (Legacy.toStringValue f (body_message body)) as [ m | ];
    [ rewrite legacy_bind_ret | intros [] ].
  unfold Legacy.sendMail.
  destruct (Legacy.sendMail_result w _ _); simpl;
    intros [ [= <- <-] | [] ]; eauto.
Qed.

Lemma legacy_run_calls (m : Legacy.Handler unit) h :
  (forall e, snd (h e) = []) ->
  snd (Legacy.run (Legacy.tryCatch m h)) = snd m.
Proof.
  intros Hh. destruct m as [ [ [] | r | e ] t ]; simpl; trivial.
  specialize (Hh e). destruct (h e) as [ [ [] | r' | e' ] t' ];
    simpl in *; subst; now rewrite app_nil_r.
Qed.

Lemma legacy_bind_calls {A B} (m : Legacy.Handler A) (k : A -> Legacy.Handler B) c :
  In c (snd (Legacy.bind m k)) ->
  In c (snd m) \/ exists a, In c (snd (k a)).
Proof.
  destruct m as [ [ a | r | e ] t ]; simpl; auto.
  destruct (k a) as [ c' t' ] eqn:Hk. simpl. intros Hin.
  apply in_app_or in Hin as [ Hin | Hin ]; [ now left | right ].
  exists a. now rewrite Hk.
Qed.

(** X17.  Whatever the earlier route dispatches goes through the
    [service: 'gmail'] transport to [RECEIVER_EMAIL] when that is set and
    not empty and to the built-in address rrwr@gmail.com otherwise, with
    the [email] property as it was received (untrimmed) as reply-to. *)
Theorem legacy_dispatch_recipient f env w body t o :
  In (Legacy.CallSendMail t o)
     (snd (Legacy.run (Legacy.handleContact f env w body))) ->
  t = Legacy.transporter env /\
  Legacy.replyTo o = body_email body /\
  (forall r, configured (RECEIVER_EMAIL env) r -> Legacy.to o = r) /\
  (ToBoolean (getenv (RECEIVER_EMAIL env)) = false ->
   Legacy.to o = lit "rrwr@gmail.com").
Proof.
  unfold Legacy.handleContact.
  destruct (negb (ToBoolean (body_name body)) || negb (ToBoolean (body_email body))
            || negb (ToBoolean (body_message body)));
    [ simpl; tauto | ].
  rewrite legacy_run_calls by reflexivity.
  intros Hin. apply legacy_bind_calls in Hin as [ Hin | [ [] Hin ] ].
  - exfalso. destruct (MAILBOXLAYER_API_KEY env) as [ [ | c k ] | ];
      try (simpl in Hin; contradiction).
    now apply legacy_verifyEmail_calls in Hin.
  - apply legacy_send_calls in Hin as (n & e & m & -> & ->). simpl.
    split; [ reflexivity | ]. split; [ reflexivity | ]. split.
    + intros r Hr. now apply legacy_receiver_configured.
    + apply legacy_receiver_fallback.
Qed.

Lemma legacy_dispatch_recipient_witness :
  let body := textBody (lit "Ann") (lit " ann@example.com") (lit "Hi") in
  let o := Legacy.mailOptions noRecipientEnv (body_email body)
             (lit "Ann") (lit " ann@example.com") (lit "Hi") in
  Legacy.transporter noRecipientEnv = Legacy.transporter noRecipientEnv /\
  Legacy.replyTo o = body_email body /\
  (forall r, configured (RECEIVER_EMAIL noRecipientEnv) r -> Legacy.to o = r) /\
  (ToBoolean (getenv (RECEIVER_EMAIL noRecipientEnv)) = false ->
   Legacy.to o = lit "rrwr@gmail.com").
Proof.
  intros body o.
  apply (legacy_dispatch_recipient noConversion noRecipientEnv
           legacyUnreachable body (Legacy.transporter noRecipientEnv) o).
  right. left. reflexivity.
Defined.

(* ================================================================== *)
(** * The rate limiter, continued *)

(** X18.  Under the limit nothing is held back: the request of a caller
    that opens a window, and each of that caller's next four requests in
    the window, is handed to the route, whatever other callers send in
    between. *)
Theorem first_five_requests_pass (env : Env) (w : World)
    (store : gmap (list N) RateLimit.Client)
    (first : Request) (rest : list Request) (next : Request) (a : list N) :
  ip first = a ->
  match store !! a with
  | Some c => (RateLimit.resetTime c <= time first)%N
  | None => True
  end ->
  (forall r, In r rest -> ip r = a -> (time r < time first + 900000)%N) ->
  requestsFrom a rest < 4 ->
  ip next = a ->
  fst (postContact env w store first)
    = run (handleContact env w (body first)) /\
  fst (postContact env w (snd (serve env w store (first :: rest))) next)
    = run (handleContact env w (body next)).
Proof.
  intros Hfirst Hopen Hrest Hcount Hnext. split.
  - unfold postContact, RateLimit.limit. rewrite Hfirst.
    now rewrite (increment_fresh (time first) a store Hopen).
  - assert (Hs : snd (serve env w store (first :: rest)) !! a
                 = Some {| RateLimit.totalHits :=
                             1 + N.of_nat (requestsFrom a rest);
                           RateLimit.resetTime := time first + 900000 |}).
    { rewrite serve_cons, postContact_store, Hfirst.
      rewrite (increment_fresh (time first) a store Hopen).
      rewrite (serve_window env w a rest _
                 {| RateLimit.totalHits := 1;
                    RateLimit.resetTime := time first + 900000 |});
        [ reflexivity | apply lookup_insert_eq | exact Hrest ]. }
    unfold postContact, RateLimit.limit, RateLimit.increment.
    rewrite Hnext, Hs. simpl RateLimit.resetTime. simpl RateLimit.totalHits.
    destruct (time next <? time first + 900000)%N; simpl RateLimit.totalHits.
    + replace (1 + N.of_nat (requestsFrom a rest) + 1 <=?
               RateLimit.max contactLimiter)%N with true; [ reflexivity | ].
      symmetry. apply N.leb_le. change (RateLimit.max contactLimiter) with 5%N.
      lia.
    + reflexivity.
Qed.

Lemma first_five_requests_pass_witness :
  let w := sampleWorld ScoreMissing in
  let first := annRequest 0 "203.0.113.7" in
  let rest := [ annRequest 1000 "203.0.113.7";
                emptyRequest 1500 "198.51.100.2";
                annRequest 2000 "203.0.113.7";
                annRequest 3000 "203.0.113.7" ] in
  let next := annRequest 4000 "203.0.113.7" in
  fst (postContact sampleEnv w ∅ first)
    = run (handleContact sampleEnv w (body first)) /\
  fst (postContact sampleEnv w (snd (serve sampleEnv w ∅ (first :: rest))) next)
    = run (handleContact sampleEnv w (body next)).
Proof.
  intros w first rest next.
  apply (first_five_requests_pass sampleEnv w ∅ first rest next
           (lit "203.0.113.7")).
  - reflexivity.
  - rewrite lookup_empty. exact I.
  - intros r Hr _. simpl in Hr.
    destruct Hr as [ <- | [ <- | [ <- | [ <- | [] ] ] ] ]; reflexivity.
  - vm_compute. lia.
  - reflexivity.
Defined.
